(** * GangaSNOplus: the RATProd application, its splitter and its runtime handlers

    Shallow embedding of [python/GangaSNOplus/Lib/RATProd.py]:
    - [configure]                 is [RATProd.configure],
    - [RATSplitter.split]         is [RATSplitter.split],
    - [RTHandler.prepare]         is [RTHandler.prepare]    (local and batch backends),
    - [WGRTHandler.prepare]       is [WGRTHandler.prepare]  (WestGrid),
    - [LCGRTHandler.prepare]      is [LCGRTHandler.prepare] (LCG).

    Python strings are byte strings and are modelled by [string]; Python
    lists by [list]; a raised exception by the left injection of a sum.
    Methods that mutate the job they belong to are functions from a
    [World] to a result and a [World]: the world that comes back with an
    exception is the one the raise left behind. *)

From Stdlib Require Import Ascii String.
From stdpp Require Import base strings list gmap.

Local Open Scope string_scope.
Local Open Scope nat_scope.
Local Open Scope list_scope.

(** ** Python values *)

(** A value that is either [None] or a [str] (schema type list
    ['str', 'type(None)']). *)
Inductive pyval :=
| PyNone
| PyStr (s : string).

(** A schema item of type list ['list', 'str']: a list of file names or
    a lone string. *)
Inductive files :=
| FStr (s : string)
| FList (l : list string).

(** The [environment] item, type list ['list', 'str', 'type(None)']. *)
Inductive envval :=
| EnvNone
| EnvStr (path : string)
| EnvList (lines : list string).

(** An entry of a sandbox: a [File(name)] object or a plain string. *)
Inductive sbitem :=
| File (name : string)
| SbStr (s : string).

(** Exceptions.  Every [raise Exception] of the module is preceded by a
    [logger.error(msg)]; the logged message is kept with the exception.
    [IndexError] is what a list index out of range raises, [IOError]
    what a failed [file(path, 'w')] raises, [ConfigError] what the host
    raises for an option it does not have. *)
Inductive exn :=
| Exception (logged : string)
| IndexError
| IOError (path : string)
| ConfigError (option : string).

Definition result (A : Type) : Type := exn + A.

Definition rbind {A B} (m : result A) (k : A → result B) : result B :=
  match m with
  | inl e => inl e
  | inr x => k x
  end.

Declare Scope result_scope.
Notation "x <- m ;; k" := (rbind m (fun x => k))
  (at level 100, m at next level, right associativity) : result_scope.

(** Python truth value: [not v] holds for [None] and for the empty string. *)
Definition truthy (v : pyval) : bool :=
  match v with
  | PyNone => false
  | PyStr s => negb (bool_decide (s = ""))
  end.

(** ['%s' % v] *)
Definition fmt_s (v : pyval) : string :=
  match v with
  | PyNone => "None"
  | PyStr s => s
  end.

(** [l[i]] for [0 <= i] *)
Definition getitem {A} (l : list A) (i : nat) : result A :=
  match l !! i with
  | Some x => inr x
  | None => inl IndexError
  end.

(** ** The application object and its job *)

Record RATProd := mkRATProd {
  environment : envval;
  discardOutput : bool;
  inputDir : string;
  inputFiles : files;
  outputLog : string;
  outputDir : string;
  outputFiles : files;
  prodScript : string;
  rat_db_name : pyval;
  rat_db_pswd : pyval;
  rat_db_protocol : pyval;
  rat_db_url : pyval;
  rat_db_user : pyval;
  ratDirectory : string;
  ratMacro : string;
  ratVersion : string;
  useDB : bool
}.

(** The schema defaults of [RATProd._schema]. *)
Definition RATProd_default : RATProd :=
  {| environment := EnvNone; discardOutput := false; inputDir := "";
     inputFiles := FList []; outputLog := "rat_output.log"; outputDir := "";
     outputFiles := FList []; prodScript := "";
     rat_db_name := PyNone; rat_db_pswd := PyNone; rat_db_protocol := PyNone;
     rat_db_url := PyNone; rat_db_user := PyNone;
     ratDirectory := ""; ratMacro := ""; ratVersion := "4"; useDB := false |}.

Definition set_inputFiles (v : files) (a : RATProd) : RATProd :=
  mkRATProd (environment a) (discardOutput a) (inputDir a) v (outputLog a)
    (outputDir a) (outputFiles a) (prodScript a) (rat_db_name a) (rat_db_pswd a)
    (rat_db_protocol a) (rat_db_url a) (rat_db_user a) (ratDirectory a)
    (ratMacro a) (ratVersion a) (useDB a).

Definition set_outputFiles (v : files) (a : RATProd) : RATProd :=
  mkRATProd (environment a) (discardOutput a) (inputDir a) (inputFiles a)
    (outputLog a) (outputDir a) v (prodScript a) (rat_db_name a) (rat_db_pswd a)
    (rat_db_protocol a) (rat_db_url a) (rat_db_user a) (ratDirectory a)
    (ratMacro a) (ratVersion a) (useDB a).

Definition set_prodScript (v : string) (a : RATProd) : RATProd :=
  mkRATProd (environment a) (discardOutput a) (inputDir a) (inputFiles a)
    (outputLog a) (outputDir a) (outputFiles a) v (rat_db_name a) (rat_db_pswd a)
    (rat_db_protocol a) (rat_db_url a) (rat_db_user a) (ratDirectory a)
    (ratMacro a) (ratVersion a) (useDB a).

Definition set_ratMacro (v : string) (a : RATProd) : RATProd :=
  mkRATProd (environment a) (discardOutput a) (inputDir a) (inputFiles a)
    (outputLog a) (outputDir a) (outputFiles a) (prodScript a) (rat_db_name a)
    (rat_db_pswd a) (rat_db_protocol a) (rat_db_url a) (rat_db_user a)
    (ratDirectory a) v (ratVersion a) (useDB a).

(** The parts of [job.backend] the handlers read or write:
    [job.backend.voproxy] (WestGrid) and
    [job.backend.requirements.software] (LCG). *)
Record Backend := mkBackend {
  voproxy : pyval;
  requirements_software : pyval
}.

Record Job := mkJob {
  application : RATProd;
  inputsandbox : list sbitem;
  outputsandbox : list string;
  backend : Backend
}.

Definition set_application (a : RATProd) (j : Job) : Job :=
  mkJob a (inputsandbox j) (outputsandbox j) (backend j).

Definition set_inputsandbox (v : list sbitem) (j : Job) : Job :=
  mkJob (application j) v (outputsandbox j) (backend j).

Definition set_outputsandbox (v : list string) (j : Job) : Job :=
  mkJob (application j) (inputsandbox j) v (backend j).

Definition set_backend (b : Backend) (j : Job) : Job :=
  mkJob (application j) (inputsandbox j) (outputsandbox j) b.

(** ** RATSplitter *)

Module RATSplitter.

Record t := mk {
  outputFiles : list files;
  inputFiles : list files;
  prodScript : list string;
  ratMacro : list string
}.

Section split.

Local Open Scope result_scope.

(** [ISplitter.createSubjob] belongs to the host framework. *)
Variable createSubjob : Job → Job.

(** One turn of [for i in range(nFiles)]: the sub-job appended to
    [subjobs]. *)
Definition split_body (self : t) (job : Job) (fin fout : bool) (nMacro i : nat) :
    result Job :=
  let j := createSubjob job in
  j <- (if fout
        then x <- getitem (outputFiles self) i ;;
             inr (set_application (set_outputFiles x (application j)) j)
        else inr j) ;;
  j <- (if fin
        then x <- getitem (inputFiles self) i ;;
             inr (set_application (set_inputFiles x (application j)) j)
        else inr j) ;;
  if negb (nMacro =? 0)
  then x <- getitem (ratMacro self) i ;;
       inr (set_application (set_ratMacro x (application j)) j)
  else x <- getitem (prodScript self) i ;;
       inr (set_application (set_prodScript x (application j)) j).

Fixpoint split_loop (self : t) (job : Job) (fin fout : bool) (nMacro : nat)
    (range : list nat) (subjobs : list Job) : result (list Job) :=
  match range with
  | [] => inr subjobs
  | i :: range =>
    j <- split_body self job fin fout nMacro i ;;
    split_loop self job fin fout nMacro range (subjobs ++ [j])
  end.

Definition split (self : t) (job : Job) : result (list Job) :=
  let subjobs := [] in
  let fin := true in
  let fout := true in
  let nFiles := 0 in
  let '(fin, nFiles) :=
    if length (inputFiles self) =? 0 then (false, nFiles)
    else (fin, length (inputFiles self)) in
  let '(fout, nFiles) :=
    if length (outputFiles self) =? 0 then (false, nFiles)
    else (fout, length (outputFiles self)) in
  let nScript := length (prodScript self) in
  let nMacro := length (ratMacro self) in
  if negb (nScript =? 0) && negb (nMacro =? 0)
  then inl (Exception "cannot provide both scripts and macros, must be either or")
  else if (nScript =? 0) && (nMacro =? 0)
  then inl (Exception "must provide EITHER macros or scripts")
  else if negb fin && negb fout
  then inl (Exception "Why are you splitting?")
  else if fin && fout && negb (length (inputFiles self) =? length (outputFiles self))
  then inl (Exception "input/output numbers dont match")
  else if negb (nScript =? 0) && negb (nScript =? nFiles)
  then inl (Exception "script/file numbers dont match")
  else if negb (nMacro =? 0) && negb (nMacro =? nFiles)
  then inl (Exception "macro/file numbers dont match")
  else split_loop self job fin fout nMacro (seq 0 nFiles) subjobs.

End split.

End RATSplitter.

(** ** Methods that mutate the job *)

(** What a method can read and write: the job (which owns the
    application object: [app.getJobObject()] and [app._getParent()] are
    both [job], and [self] in [configure] is [job.application]) and the
    files written under [/tmp]. *)
Record World := mkWorld {
  job : Job;
  filesystem : gmap string string
}.

Definition M (A : Type) : Type := World → result A * World.

Definition ret {A} (x : A) : M A := fun w => (inr x, w).

Definition raise {A} (e : exn) : M A := fun w => (inl e, w).

Definition mbind {A B} (m : M A) (k : A → M B) : M B :=
  fun w =>
    match m w with
    | (inl e, w') => (inl e, w')
    | (inr x, w') => k x w'
    end.

Definition lift {A} (r : result A) : M A := fun w => (r, w).

Definition gets {A} (f : World → A) : M A := fun w => (inr (f w), w).

Definition modify_job (f : Job → Job) : M unit :=
  fun w => (inr tt, mkWorld (f (job w)) (filesystem w)).

(** [tempf = file(path, 'w'); tempf.write(...); tempf.close()] *)
Definition write_file (writable : bool) (path content : string) : M unit :=
  fun w =>
    if writable
    then (inr tt, mkWorld (job w) (<[path := content]> (filesystem w)))
    else (inl (IOError path), w).

Declare Scope world_scope.
Notation "x <- m ;; k" := (mbind m (fun x => k))
  (at level 100, m at next level, right associativity) : world_scope.
Notation "m ;;; k" := (mbind m (fun _ => k))
  (at level 100, right associativity) : world_scope.

Local Open Scope world_scope.

(** [self] / [app] *)
Definition get_app : M RATProd := gets (fun w => application (job w)).

(** [job.inputsandbox.append(x)] *)
Definition inputsandbox_append (x : sbitem) : M unit :=
  modify_job (fun j => set_inputsandbox (inputsandbox j ++ [x]) j).

(** [job.outputsandbox.append(x)] *)
Definition outputsandbox_append (x : string) : M unit :=
  modify_job (fun j => set_outputsandbox (outputsandbox j ++ [x]) j).

(** [if c: logger.error(msg); raise Exception] *)
Definition raise_if (c : bool) (msg : string) : M unit :=
  if c then raise (Exception msg) else ret tt.

(** ** RATProd.configure *)

Section configure.

(** The module-level [config] object, made by the host's [makeConfig]:
    [config name] is what [config[name]] evaluates to, an exception when
    the lookup raises. *)
Variable config : string → result pyval.

Definition configure : M (pyval * pyval) :=
  self <- get_app ;;
  (if String.eqb (prodScript self) "" && String.eqb (ratMacro self) ""
   then raise (Exception "prodScript or ratMacro not defined")
   else if negb (String.eqb (prodScript self) "") && negb (String.eqb (ratMacro self) "")
   then raise (Exception "both prodScript and ratMacro are defined")
   else ret tt) ;;;
  (if useDB self
   then pswd <- lift (config "rat_db_pswd") ;;
        raise_if (negb (truthy pswd))
          "Need a password in order to contact the ratdb database"
   else ret tt) ;;;
  (if negb (String.eqb (ratMacro self) "")
   then inputsandbox_append (File (ratMacro self)) ;;;
        outputsandbox_append "rat.log"
   else inputsandbox_append (File (prodScript self))) ;;;
  outputsandbox_append "return_card.js" ;;;
  self <- get_app ;;
  (match inputFiles self with
   | FStr s => modify_job (fun j => set_application (set_inputFiles (FList [s]) (application j)) j)
   | FList _ => ret tt
   end) ;;;
  self <- get_app ;;
  (match outputFiles self with
   | FStr s => modify_job (fun j => set_application (set_outputFiles (FList [s]) (application j)) j)
   | FList _ => ret tt
   end) ;;;
  ret (PyNone, PyNone).

End configure.

(** ** What the three handlers share *)

Definition slash : ascii := "/".

(** [s.split(sep)] for a one-character separator. *)
Fixpoint str_split (sep : ascii) (s : string) : list string :=
  match s with
  | EmptyString => [""]
  | String c s' =>
    if decide (c = sep) then "" :: str_split sep s'
    else match str_split sep s' with
         | [] => [String c ""]
         | w :: ws => String c w :: ws
         end
  end.

(** [decimated = path.split('/'); decimated[len(decimated)-1]] *)
Definition last_component (path : string) : result string :=
  let decimated := str_split slash path in
  getitem decimated (length decimated - 1).

(** [macroFile] and [prodFile] after "we need to know the name of the
    file to run". *)
Definition run_file (app : RATProd) : result (pyval * pyval) :=
  let macroFile := PyNone in
  let prodFile := PyNone in
  if negb (String.eqb (ratMacro app) "")
  then rbind (last_component (ratMacro app)) (fun f => inr (PyStr f, prodFile))
  else rbind (last_component (prodScript app)) (fun f => inr (macroFile, PyStr f)).

(** What [for i, var in enumerate(x)] yields for a schema item of type
    list or str: the entries of a list, the characters of a string. *)
Definition enumerate (x : files) : list string :=
  match x with
  | FList l => l
  | FStr s => (fun c => String c "") <$> list_ascii_of_string s
  end.

(** [for i, var in enumerate(x): acc += '%s,' % var] *)
Fixpoint add_entries (acc : string) (vars : list string) : string :=
  match vars with
  | [] => acc
  | var :: vars => add_entries (acc +:+ var +:+ ",") vars
  end.

(** [s[:-1]] *)
Fixpoint drop_last (s : string) : string :=
  match s with
  | EmptyString => ""
  | String c EmptyString => ""
  | String c s' => String c (drop_last s')
  end.

(** [foutList] (and [finList]) as the handlers build it. *)
Definition file_list (x : files) : string :=
  let foutList := "[" in
  let foutList := add_entries foutList (enumerate x) in
  if negb (String.length foutList =? 1)
  then drop_last foutList +:+ "]"
  else foutList.

(** What a handler hands back to the host. *)
Inductive JobConfig :=
| StandardJobConfig (exe : sbitem) (inputbox : list sbitem)
    (outputbox : list string) (args : list pyval)
| LCGJobConfig (exe : sbitem) (inputbox : list sbitem)
    (outputbox : list string) (args : list pyval).

Definition newline : string := String (ascii_of_nat 10) "".
Definition dquote : string := String (ascii_of_nat 34) "".

(** [os.path.basename(p)]: what follows the last slash. *)
Definition os_path_basename (p : string) : string :=
  List.last (str_split slash p) "".

(** ** RTHandler: local and batch backends *)

Module RTHandler.

Section prepare.

(** [app.config], an attribute the host gives the application object:
    [app_config name] is what [app.config[name]] evaluates to. *)
Variable app_config : string → result pyval.
(** [os.path.dirname(__file__)] *)
Variable _app_directory : string.
(** [os.getlogin()] *)
Variable getlogin : string.
(** Whether [file(path, 'w')] succeeds. *)
Variable can_write : string → bool.

(** The branch [if app.environment==None]. *)
Definition prepare_plain (app : RATProd) (swDir : string)
    (macroFile prodFile : pyval) (foutList finList : string) : M JobConfig :=
  let args := [] in
  let args := args ++ [PyStr "-v"; PyStr (ratVersion app)] in
  let args := args ++ [PyStr "-s"; PyStr swDir] in
  let args := args ++ [PyStr "-d"; PyStr (outputDir app)] in
  let args := args ++ [PyStr "-o"; PyStr foutList] in
  let args := args ++ [PyStr "-x"; PyStr (inputDir app)] in
  let args := args ++ [PyStr "-i"; PyStr finList] in
  let args :=
    if negb (String.eqb (ratMacro app) "")
    then args ++ [PyStr "-m"; macroFile]
    else args ++ [PyStr "-k"; PyStr "-m"; prodFile] in
  args <- (if useDB app
           then rat_db_user <- lift (app_config "rat_db_user") ;;
                let args := args ++ [PyStr "--dbuser"; rat_db_user] in
                rat_db_pswd <- lift (app_config "rat_db_pswd") ;;
                let args := args ++ [PyStr "--dbpassword"; rat_db_pswd] in
                rat_db_name <- lift (app_config "rat_db_name") ;;
                let args := args ++ [PyStr "--dbname"; rat_db_name] in
                rat_db_protocol <- lift (app_config "rat_db_protocol") ;;
                let args := args ++ [PyStr "--dbprotocol"; rat_db_protocol] in
                rat_db_url <- lift (app_config "rat_db_url") ;;
                let args := args ++ [PyStr "--dburl"; rat_db_url] in
                ret args
           else ret args) ;;
  let args := if discardOutput app then args ++ [PyStr "--nostore"] else args in
  parent <- gets job ;;
  ret (StandardJobConfig (File (_app_directory +:+ "/ratProdRunner.py"))
         (inputsandbox parent) (outputsandbox parent) args).

(** The branch [else], once [envFile] is known. *)
Definition prepare_wrapped (app : RATProd) (swDir : string)
    (macroFile prodFile : pyval) (foutList finList envFile : string) : M JobConfig :=
  let args := "" in
  let args := args +:+ "-v " +:+ ratVersion app +:+ " " in
  let args := args +:+ "-s " +:+ swDir +:+ " " in
  let args := args +:+ "-d " +:+ outputDir app +:+ " " in
  let args := args +:+ "-o " +:+ foutList +:+ " " in
  let args := args +:+ "-x " +:+ inputDir app +:+ " " in
  let args := args +:+ "-i " +:+ finList +:+ " " in
  let args :=
    if negb (String.eqb (ratMacro app) "")
    then args +:+ "-m " +:+ fmt_s macroFile +:+ " "
    else args +:+ "-k -m " +:+ fmt_s prodFile +:+ " " in
  args <- (if useDB app
           then rat_db_user <- lift (app_config "rat_db_user") ;;
                let args := args +:+ "--dbuser " +:+ fmt_s rat_db_user +:+ " " in
                rat_db_pswd <- lift (app_config "rat_db_pswd") ;;
                let args := args +:+ "--dbpassword " +:+ fmt_s rat_db_pswd +:+ " " in
                rat_db_name <- lift (app_config "rat_db_name") ;;
                let args := args +:+ "--dbname " +:+ fmt_s rat_db_name +:+ " " in
                rat_db_protocol <- lift (app_config "rat_db_protocol") ;;
                let args := args +:+ "--dbprotocol " +:+ fmt_s rat_db_protocol +:+ " " in
                rat_db_url <- lift (app_config "rat_db_url") ;;
                let args := args +:+ "--dburl " +:+ fmt_s rat_db_url +:+ " " in
                ret args
           else ret args) ;;
  let args := if discardOutput app then args +:+ "--nostore " else args in
  let wrapperArgs :=
    [PyStr "-s"; PyStr "ratProdRunner.py"; PyStr "-l"; PyStr "misc";
     PyStr "-f"; PyStr envFile; PyStr "-a"; PyStr args] in
  inputsandbox_append (SbStr (_app_directory +:+ "/ratProdRunner.py")) ;;;
  parent <- gets job ;;
  ret (StandardJobConfig (File (_app_directory +:+ "/sillyPythonWrapper.py"))
         (inputsandbox parent) (outputsandbox parent) wrapperArgs).

Definition prepare : M JobConfig :=
  app <- get_app ;;
  swDir <- (if String.eqb (ratDirectory app) ""
            then raise (Exception "Must specify a RAT directory")
            else ret (ratDirectory app)) ;;
  files <- lift (run_file app) ;;
  let '(macroFile, prodFile) := files in
  let foutList := file_list (outputFiles app) in
  let finList := file_list (inputFiles app) in
  match environment app with
  | EnvNone => prepare_plain app swDir macroFile prodFile foutList finList
  | EnvList lines =>
    let tempname := "tempRATProdEnv_" +:+ getlogin in
    write_file (can_write ("/tmp/" +:+ tempname)) ("/tmp/" +:+ tempname)
      (String.concat "" ((fun line => line +:+ " " +:+ newline) <$> lines)) ;;;
    inputsandbox_append (SbStr ("/tmp/" +:+ tempname)) ;;;
    let envFile := tempname in
    prepare_wrapped app swDir macroFile prodFile foutList finList envFile
  | EnvStr path =>
    inputsandbox_append (SbStr path) ;;;
    let envFile := os_path_basename path in
    prepare_wrapped app swDir macroFile prodFile foutList finList envFile
  end.

End prepare.

End RTHandler.

(** ** WGRTHandler: WestGrid *)

Module WGRTHandler.

Section prepare.

Variable app_config : string → result pyval.
Variable _app_directory : string.
(** [os.environ] *)
Variable environ : gmap string string.
(** [os.path.exists] *)
Variable os_path_exists : string → bool.

Definition prepare : M JobConfig :=
  app <- get_app ;;
  parent <- gets job ;;
  swDir <- (if String.eqb (ratDirectory app) ""
            then raise (Exception "Must specify a RAT directory")
            else ret (ratDirectory app)) ;;
  voproxy <- (match voproxy (backend parent) with
              | PyNone =>
                match environ !! "X509_USER_PROXY" with
                | Some p => ret p
                | None =>
                  raise (Exception "Cannot run without voproxy either in environment (X509_USER_PROXY) or specified for WG backend")
                end
              | PyStr p => ret p
              end) ;;
  raise_if (negb (os_path_exists voproxy))
    ("Valid WestGrid backend voproxy location MUST be specified: " +:+ voproxy) ;;;
  files <- lift (run_file app) ;;
  let '(macroFile, prodFile) := files in
  let foutList := file_list (outputFiles app) in
  let finList := file_list (inputFiles app) in
  let args := "" in
  let args := args +:+ "-g srm " in
  let args := args +:+ "-v " +:+ ratVersion app +:+ " " in
  let args := args +:+ "-s " +:+ swDir +:+ " " in
  let args := args +:+ "-d " +:+ outputDir app +:+ " " in
  let args := args +:+ "-o " +:+ foutList +:+ " " in
  let args := args +:+ "-x " +:+ inputDir app +:+ " " in
  let args := args +:+ "-i " +:+ finList +:+ " " in
  let args :=
    if negb (String.eqb (ratMacro app) "")
    then args +:+ "-m " +:+ fmt_s macroFile +:+ " "
    else args +:+ "-k -m " +:+ fmt_s prodFile +:+ " " in
  let args := args +:+ "--voproxy " +:+ voproxy +:+ " " in
  args <- (if useDB app
           then rat_db_user <- lift (app_config "rat_db_user") ;;
                let args := args +:+ "--dbuser " +:+ fmt_s rat_db_user +:+ " " in
                rat_db_pswd <- lift (app_config "rat_db_pswd") ;;
                let args := args +:+ "--dbpassword " +:+ fmt_s rat_db_pswd +:+ " " in
                rat_db_name <- lift (app_config "rat_db_name") ;;
                let args := args +:+ "--dbname " +:+ fmt_s rat_db_name +:+ " " in
                rat_db_protocol <- lift (app_config "rat_db_protocol") ;;
                let args := args +:+ "--dbprotocol " +:+ fmt_s rat_db_protocol +:+ " " in
                rat_db_url <- lift (app_config "rat_db_url") ;;
                let args := args +:+ "--dburl " +:+ fmt_s rat_db_url +:+ " " in
                ret args
           else ret args) ;;
  let args := if discardOutput app then args +:+ "--nostore " else args in
  let wrapperArgs :=
    [PyStr "-s"; PyStr "ratProdRunner.py"; PyStr "-l"; PyStr "wg";
     PyStr "-a"; PyStr args] in
  inputsandbox_append (SbStr (_app_directory +:+ "/ratProdRunner.py")) ;;;
  parent <- gets job ;;
  ret (StandardJobConfig (File (_app_directory +:+ "/sillyPythonWrapper.py"))
         (inputsandbox parent) (outputsandbox parent) wrapperArgs).

End prepare.

End WGRTHandler.

(** ** LCGRTHandler: the LCG grid *)

Module LCGRTHandler.

Section prepare.

Variable app_config : string → result pyval.
Variable _app_directory : string.

Definition prepare : M JobConfig :=
  app <- get_app ;;
  modify_job (fun j =>
    set_backend
      (mkBackend (voproxy (backend j))
         (PyStr ("VO-snoplus.snolab.ca-rat-" +:+ ratVersion app))) j) ;;;
  let swDir :=
    if String.eqb (ratDirectory app) ""
    then "$VO_SNOPLUS_SNOLAB_CA_SW_DIR/snoing-install"
    else ratDirectory app in
  files <- lift (run_file app) ;;
  let '(macroFile, prodFile) := files in
  let foutList := file_list (outputFiles app) in
  let finList := file_list (inputFiles app) in
  let args := "" in
  let args := args +:+ "-g lcg " in
  let args := args +:+ "-v " +:+ ratVersion app +:+ " " in
  let args := args +:+ "-s " +:+ swDir +:+ " " in
  let args := args +:+ "-d " +:+ outputDir app +:+ " " in
  let args := args +:+ "-o " +:+ foutList +:+ " " in
  let args := args +:+ "-x " +:+ inputDir app +:+ " " in
  let args := args +:+ "-i " +:+ finList +:+ " " in
  let args :=
    if negb (String.eqb (ratMacro app) "")
    then args +:+ "-m " +:+ fmt_s macroFile +:+ " "
    else args +:+ "-k -m " +:+ fmt_s prodFile +:+ " " in
  args <- (if useDB app
           then rat_db_user <- lift (app_config "rat_db_user") ;;
                let args := args +:+ "--dbuser " +:+ fmt_s rat_db_user +:+ " " in
                rat_db_pswd <- lift (app_config "rat_db_pswd") ;;
                let args := args +:+ "--dbpassword " +:+ fmt_s rat_db_pswd +:+ " " in
                rat_db_name <- lift (app_config "rat_db_name") ;;
                let args := args +:+ "--dbname " +:+ fmt_s rat_db_name +:+ " " in
                rat_db_protocol <- lift (app_config "rat_db_protocol") ;;
                let args := args +:+ "--dbprotocol " +:+ fmt_s rat_db_protocol +:+ " " in
                rat_db_url <- lift (app_config "rat_db_url") ;;
                let args := args +:+ "--dburl " +:+ fmt_s rat_db_url +:+ " " in
                ret args
           else ret args) ;;
  let args := if discardOutput app then args +:+ "--nostore " else args in
  let wrapperArgs :=
    [PyStr "-s"; PyStr "ratProdRunner.py"; PyStr "-l"; PyStr "lcg";
     PyStr "-a"; PyStr (dquote +:+ args +:+ dquote)] in
  inputsandbox_append (SbStr (_app_directory +:+ "/ratProdRunner.py")) ;;;
  parent <- gets job ;;
  ret (LCGJobConfig (File (_app_directory +:+ "/sillyPythonWrapper.py"))
         (inputsandbox parent) (outputsandbox parent) wrapperArgs).

End prepare.

End LCGRTHandler.

(** * Specification vocabulary and example inputs *)

(** ** The splitter *)

(** The file count of a split request: the common length of its
    non-empty input and output sequences. *)
Definition fileCount (self : RATSplitter.t) : nat :=
  length (RATSplitter.inputFiles self) `max` length (RATSplitter.outputFiles self).

(** The four validation rules of the splitter, as the specification
    words them. *)
Definition passes_validation (self : RATSplitter.t) : Prop :=
  (RATSplitter.prodScript self ≠ [] ↔ RATSplitter.ratMacro self = [])
  ∧ (RATSplitter.inputFiles self ≠ [] ∨ RATSplitter.outputFiles self ≠ [])
  ∧ (RATSplitter.inputFiles self ≠ [] → RATSplitter.outputFiles self ≠ [] →
     length (RATSplitter.inputFiles self) = length (RATSplitter.outputFiles self))
  ∧ (RATSplitter.prodScript self ≠ [] →
     length (RATSplitter.prodScript self) = fileCount self)
  ∧ (RATSplitter.ratMacro self ≠ [] →
     length (RATSplitter.ratMacro self) = fileCount self).

(** The ways a split request can break a rule, as the specification
    lists them. *)
Definition violates_validation (self : RATSplitter.t) : Prop :=
  (RATSplitter.prodScript self ≠ [] ∧ RATSplitter.ratMacro self ≠ [])
  ∨ (RATSplitter.prodScript self = [] ∧ RATSplitter.ratMacro self = [])
  ∨ (RATSplitter.inputFiles self = [] ∧ RATSplitter.outputFiles self = [])
  ∨ (RATSplitter.inputFiles self ≠ [] ∧ RATSplitter.outputFiles self ≠ [] ∧
     length (RATSplitter.inputFiles self) ≠ length (RATSplitter.outputFiles self))
  ∨ (RATSplitter.prodScript self ≠ [] ∧
     length (RATSplitter.prodScript self) ≠ fileCount self)
  ∨ (RATSplitter.ratMacro self ≠ [] ∧
     length (RATSplitter.ratMacro self) ≠ fileCount self).

(** Sub-job [j] carries slice [i] of the request [self]: the fields the
    request populates hold its [i]-th entries, and of [ratMacro] and
    [prodScript] the one the request leaves empty is as [parent] has it. *)
Definition is_slice (self : RATSplitter.t) (parent : Job) (i : nat) (j : Job) : Prop :=
  (RATSplitter.outputFiles self ≠ [] →
   RATSplitter.outputFiles self !! i = Some (outputFiles (application j)))
  ∧ (RATSplitter.inputFiles self ≠ [] →
     RATSplitter.inputFiles self !! i = Some (inputFiles (application j)))
  ∧ (RATSplitter.ratMacro self ≠ [] →
     RATSplitter.ratMacro self !! i = Some (ratMacro (application j))
     ∧ prodScript (application j) = prodScript (application parent))
  ∧ (RATSplitter.prodScript self ≠ [] →
     RATSplitter.prodScript self !! i = Some (prodScript (application j))
     ∧ ratMacro (application j) = ratMacro (application parent)).

(** What one turn of the loop makes, in terms of the flags the loop
    runs under. *)
Definition body_post (createSubjob : Job → Job) (self : RATSplitter.t) (job : Job)
    (fin fout : bool) (nMacro i : nat) (j : Job) : Prop :=
  (if fout
   then RATSplitter.outputFiles self !! i = Some (outputFiles (application j))
   else outputFiles (application j) = outputFiles (application (createSubjob job)))
  ∧ (if fin
     then RATSplitter.inputFiles self !! i = Some (inputFiles (application j))
     else inputFiles (application j) = inputFiles (application (createSubjob job)))
  ∧ (if negb (nMacro =? 0)
     then RATSplitter.ratMacro self !! i = Some (ratMacro (application j))
          ∧ prodScript (application j) = prodScript (application (createSubjob job))
     else RATSplitter.prodScript self !! i = Some (prodScript (application j))
          ∧ ratMacro (application j) = ratMacro (application (createSubjob job))).

(** Two input files, two output files and a script for each. *)
Definition two_files : RATSplitter.t :=
  RATSplitter.mk [FStr "o1.root"; FStr "o2.root"] [FStr "f1.root"; FStr "f2.root"]
    ["s1.mac"; "s2.mac"] [].

(** A job whose application has the schema defaults. *)
Definition plain_job : Job :=
  mkJob RATProd_default [] [] (mkBackend PyNone PyNone).

(** ** The handlers *)

(** [name] is the last slash-separated component of [path]: it has no
    slash, and [path] is [name] or ends in a slash followed by [name]. *)
Definition is_last_component (path name : string) : Prop :=
  (slash ∉ list_ascii_of_string name)
  ∧ (path = name ∨ ∃ dir, path = dir +:+ "/" +:+ name).

(** The path the run file is taken from. *)
Definition run_path (app : RATProd) : string :=
  if bool_decide (ratMacro app ≠ "") then ratMacro app else prodScript app.

(** [app.config] holds these five values under the five keys of the
    database connection. *)
Definition configured (app_config : string → result pyval)
    (user pswd name protocol url : pyval) : Prop :=
  app_config "rat_db_user" = inr user
  ∧ app_config "rat_db_pswd" = inr pswd
  ∧ app_config "rat_db_name" = inr name
  ∧ app_config "rat_db_protocol" = inr protocol
  ∧ app_config "rat_db_url" = inr url.

(** The database tokens, in the order they are appended. *)
Definition db_args (user pswd name protocol url : pyval) : list pyval :=
  [PyStr "--dbuser"; user; PyStr "--dbpassword"; pswd; PyStr "--dbname"; name;
   PyStr "--dbprotocol"; protocol; PyStr "--dburl"; url].

(** [app.useDB = v] *)
Definition set_useDB (v : bool) (a : RATProd) : RATProd :=
  mkRATProd (environment a) (discardOutput a) (inputDir a) (inputFiles a)
    (outputLog a) (outputDir a) (outputFiles a) (prodScript a) (rat_db_name a)
    (rat_db_pswd a) (rat_db_protocol a) (rat_db_url a) (rat_db_user a)
    (ratDirectory a) (ratMacro a) (ratVersion a) v.

(** The world [w] with the database flag of its application set to
    [flag]. *)
Definition with_useDB (flag : bool) (w : World) : World :=
  mkWorld (set_application (set_useDB flag (application (job w))) (job w))
    (filesystem w).

(** A macro-mode application of version 5 that discards its output and
    uses the database. *)
Definition macro_app : RATProd :=
  mkRATProd EnvNone true "in" (FList ["i1.root"]) "rat_output.log" "out"
    (FList ["o1.root"; "o2.root"]) "" PyNone PyNone PyNone PyNone PyNone
    "/sw/snoing" "/macros/run.mac" "5" true.

(** Its job, on a backend without a proxy, and an empty [/tmp]. *)
Definition macro_world : World :=
  mkWorld (mkJob macro_app [] [] (mkBackend PyNone PyNone)) ∅.

(** An [app.config] in which nothing is set. *)
Definition unset_config : string → result pyval := λ _, inr PyNone.

(** What [configure] makes of a file field: a lone string becomes the
    list holding it, a list stays. *)
Definition as_list (x : files) : files :=
  match x with
  | FStr s => FList [s]
  | FList l => FList l
  end.

(** [configure] gets past its checks: exactly one of [prodScript] and
    [ratMacro] is set, and with [useDB] set [config] has a password. *)
Definition configurable (config : string → result pyval) (app : RATProd) : Prop :=
  (prodScript app = "" ↔ ratMacro app ≠ "")
  ∧ (useDB app = true → ∃ v, config "rat_db_pswd" = inr v ∧ truthy v = true).

(** A script-mode application whose file fields are lone strings. *)
Definition string_fields_app : RATProd :=
  mkRATProd EnvNone false "" (FStr "f1.root") "rat_output.log" ""
    (FStr "o1.root") "/scripts/s1.py" PyNone PyNone PyNone PyNone PyNone
    "/sw/snoing" "" "4" false.

(** Its job. *)
Definition string_fields_world : World :=
  mkWorld (mkJob string_fields_app [] [] (mkBackend PyNone PyNone)) ∅.

(** The part of the argument string all handlers share, from the
    version tag to the run file. *)
Definition common_string (app : RATProd) (swDir file : string) : string :=
  "-v " +:+ ratVersion app +:+ " " +:+
  "-s " +:+ swDir +:+ " " +:+
  "-d " +:+ outputDir app +:+ " " +:+
  "-o " +:+ file_list (outputFiles app) +:+ " " +:+
  "-x " +:+ inputDir app +:+ " " +:+
  "-i " +:+ file_list (inputFiles app) +:+ " " +:+
  (if bool_decide (ratMacro app ≠ "") then "-m " else "-k -m ") +:+ file +:+ " ".

(** The database tokens, in the order they are appended to an argument
    string. *)
Definition db_string (user pswd name protocol url : pyval) : string :=
  "--dbuser " +:+ fmt_s user +:+ " " +:+
  "--dbpassword " +:+ fmt_s pswd +:+ " " +:+
  "--dbname " +:+ fmt_s name +:+ " " +:+
  "--dbprotocol " +:+ fmt_s protocol +:+ " " +:+
  "--dburl " +:+ fmt_s url +:+ " ".

(** The proxy the WestGrid handler settles on: the one of the backend,
    the one of the environment when the backend has none. *)
Definition resolved_proxy (b : Backend) (environ : gmap string string) :
    option string :=
  match voproxy b with
  | PyStr p => Some p
  | PyNone => environ !! "X509_USER_PROXY"
  end.

(** The software directory the LCG handler passes on. *)
Definition lcg_swDir (app : RATProd) : string :=
  if bool_decide (ratDirectory app = "")
  then "$VO_SNOPLUS_SNOLAB_CA_SW_DIR/snoing-install"
  else ratDirectory app.

(** The job of [macro_app] on a WestGrid backend that names its proxy. *)
Definition westgrid_world : World :=
  mkWorld (mkJob macro_app [] [] (mkBackend (PyStr "/tmp/x509up_u1000") PyNone)) ∅.

(** A macro-mode application that leaves [ratDirectory] empty. *)
Definition no_directory_app : RATProd :=
  set_ratMacro "/macros/run.mac" RATProd_default.

(** Its job. *)
Definition no_directory_world : World :=
  mkWorld (mkJob no_directory_app [] [] (mkBackend PyNone PyNone)) ∅.

(** ** Further vocabulary *)

(** Job [j] is [parent] but for the four fields a split sets: outside its
    application it is [parent], and its application with those four
    fields put back is the application of [parent]. *)
Definition differs_in_split_fields (parent j : Job) : Prop :=
  set_application (application parent) j = parent
  ∧ set_prodScript (prodScript (application parent))
      (set_ratMacro (ratMacro (application parent))
         (set_inputFiles (inputFiles (application parent))
            (set_outputFiles (outputFiles (application parent)) (application j))))
    = application parent.

(** A request with output files and macros only, and a job to split. *)
Definition outputs_only : RATSplitter.t :=
  RATSplitter.mk [FList ["o1.root"]; FList ["o2.root"; "o3.root"]] []
    [] ["m1.mac"; "m2.mac"].

(** [m] leaves the world as it found it, whatever it returns. *)
Definition readonly {A} (m : M A) : Prop := ∀ w, snd (m w) = w.

(** [m] never raises. *)
Definition nofail {A} (m : M A) : Prop := ∀ w, ∃ x, fst (m w) = inr x.

(** When [m] raises, the world is as [m] found it. *)
Definition atomic {A} (m : M A) : Prop := ∀ w e w', m w = (inl e, w') → w' = w.

(** What [configure] appends to the output sandbox. *)
Definition configure_outputs (app : RATProd) : list string :=
  if bool_decide (ratMacro app ≠ "") then ["rat.log"; "return_card.js"]
  else ["return_card.js"].

(** The world a [configure] that gets past its checks leaves behind. *)
Definition configured_world (w : World) : World :=
  let app := application (job w) in
  mkWorld
    (mkJob
       (set_outputFiles (as_list (outputFiles app))
          (set_inputFiles (as_list (inputFiles app)) app))
       (inputsandbox (job w) ++ [File (run_path app)])
       (outputsandbox (job w) ++ configure_outputs app)
       (backend (job w)))
    (filesystem w).

(** What [tempf.write('%s \n' % line)] for each line leaves in the
    file. *)
Definition env_file_content (lines : list string) : string :=
  String.concat "" ((λ line, line +:+ " " +:+ newline) <$> lines).

(** The arguments of the wrapper on the local and batch backends. *)
Definition misc_wrapper_args (envFile args : string) : list pyval :=
  [PyStr "-s"; PyStr "ratProdRunner.py"; PyStr "-l"; PyStr "misc";
   PyStr "-f"; PyStr envFile; PyStr "-a"; PyStr args].

(** An argument list written out as one string, each token followed by
    a space. *)
Definition render (args : list pyval) : string :=
  String.concat "" ((λ token, fmt_s token +:+ " ") <$> args).

(** [app.environment = v] *)
Definition set_environment (v : envval) (a : RATProd) : RATProd :=
  mkRATProd v (discardOutput a) (inputDir a) (inputFiles a)
    (outputLog a) (outputDir a) (outputFiles a) (prodScript a) (rat_db_name a)
    (rat_db_pswd a) (rat_db_protocol a) (rat_db_url a) (rat_db_user a)
    (ratDirectory a) (ratMacro a) (ratVersion a) (useDB a).

(** The world [w] with the environment of its application set to [v]. *)
Definition with_environment (v : envval) (w : World) : World :=
  mkWorld (set_application (set_environment v (application (job w))) (job w))
    (filesystem w).

(** Where the handler of the local and batch backends writes an
    environment given as a list, and the name it passes after [-f]. *)
Definition env_temp_name (login : string) : string := "tempRATProdEnv_" +:+ login.
Definition env_temp_path (login : string) : string := "/tmp/" +:+ env_temp_name login.

(** The argument string of the handlers, without the grid prefix. *)
Definition args_string (app_user app_pswd app_name app_protocol app_url : pyval)
    (app : RATProd) (swDir file : string) : string :=
  common_string app swDir file +:+
  (if useDB app then db_string app_user app_pswd app_name app_protocol app_url
   else "") +:+
  (if discardOutput app then "--nostore " else "").

(** A script-mode application that names a file for its environment. *)
Definition env_file_app : RATProd :=
  mkRATProd (EnvStr "/home/snoprod/env/env_rat-5.sh") false "in" (FList ["i1.root"])
    "rat_output.log" "out" (FList ["o1.root"]) "/scripts/s1.py"
    PyNone PyNone PyNone PyNone PyNone "/sw/snoing" "" "5" false.

Definition env_file_world : World :=
  mkWorld (mkJob env_file_app [] [] (mkBackend PyNone PyNone)) ∅.

(** The same application with its environment given as two commands. *)
Definition env_list_app : RATProd :=
  set_environment (EnvList ["source /sw/env.sh"; "export RATDB=1"]) env_file_app.

Definition env_list_world : World :=
  mkWorld (mkJob env_list_app [] [] (mkBackend PyNone PyNone)) ∅.

(** A second job of the same user, with another environment. *)
Definition other_env_job : Job :=
  mkJob (set_environment (EnvList ["source /sw/other.sh"]) env_file_app) [] []
    (mkBackend PyNone PyNone).

(** The keys [prepare] looks up in [app.config], in the order it looks
    them up. *)
Definition db_keys : list string :=
  ["rat_db_user"; "rat_db_pswd"; "rat_db_name"; "rat_db_protocol"; "rat_db_url"].

(** An [app.config] that has a user and a password and nothing else. *)
Definition partial_config : string → result pyval :=
  λ key,
    if bool_decide (key = "rat_db_user") then inr (PyStr "snoplus")
    else if bool_decide (key = "rat_db_pswd") then inr (PyStr "secret")
    else inl (ConfigError key).

(** The job of [macro_app] on a WestGrid backend without a proxy. *)
Definition no_proxy_world : World :=
  mkWorld (mkJob macro_app [SbStr "seed.txt"] ["rat.log"] (mkBackend PyNone PyNone)) ∅.

(** World [w'] is [w] with, at most, entries appended to the input
    sandbox and files written: the application, the output sandbox and
    the backend are the same, and the input sandbox of [w] is the
    beginning of that of [w']. *)
Definition extends (w w' : World) : Prop :=
  application (job w') = application (job w)
  ∧ outputsandbox (job w') = outputsandbox (job w)
  ∧ backend (job w') = backend (job w)
  ∧ inputsandbox (job w) `prefix_of` inputsandbox (job w').

(** [m] does no more to the world than [extends] allows. *)
Definition steady {A} (m : M A) : Prop := ∀ w, extends w (snd (m w)).

(** The world [w] once the LCG handler has set the software requirement
    of the backend. *)
Definition lcg_tagged (w : World) : World :=
  mkWorld
    (set_backend
       (mkBackend (voproxy (backend (job w)))
          (PyStr ("VO-snoplus.snolab.ca-rat-" +:+ ratVersion (application (job w)))))
       (job w))
    (filesystem w).

(** A parent job whose application already names a macro, and a request
    that splits it by scripts. *)
Definition macro_parent : Job :=
  mkJob (set_ratMacro "/macros/run.mac" RATProd_default) [] []
    (mkBackend PyNone PyNone).

(** The five flags of the database connection. *)
Definition db_flags : list string :=
  ["--dbuser"; "--dbpassword"; "--dbname"; "--dbprotocol"; "--dburl"].

(** * Properties *)

(** ** The splitter *)

Lemma violates_not_passes (self : RATSplitter.t) :
  violates_validation self → ¬ passes_validation self.
Proof.
  destruct self as [out inp scr mac].
  unfold violates_validation, passes_validation, fileCount.
  cbn [RATSplitter.outputFiles RATSplitter.inputFiles RATSplitter.prodScript
       RATSplitter.ratMacro].
  destruct out, inp, scr, mac; cbn [length Nat.max];
    intuition (congruence || lia).
Qed.

(** In range: under the rules every index below the file count is an
    index of each populated sequence. *)
Lemma passes_in_range (self : RATSplitter.t) i :
  passes_validation self → i < fileCount self →
  (bool_decide (RATSplitter.outputFiles self ≠ []) = true →
   i < length (RATSplitter.outputFiles self))
  ∧ (bool_decide (RATSplitter.inputFiles self ≠ []) = true →
     i < length (RATSplitter.inputFiles self))
  ∧ (if negb (length (RATSplitter.ratMacro self) =? 0)
     then i < length (RATSplitter.ratMacro self)
     else i < length (RATSplitter.prodScript self)).
Proof.
  destruct self as [out inp scr mac].
  unfold passes_validation, fileCount.
  cbn [RATSplitter.outputFiles RATSplitter.inputFiles RATSplitter.prodScript
       RATSplitter.ratMacro].
  intros (Hone & Hsome & Hboth & Hscr & Hmac) Hi.
  split_and!.
  - intros Ho%bool_decide_eq_true. destruct inp; [simpl in Hi; lia|].
    assert (f :: inp ≠ []) as Hx by done. specialize (Hboth Hx Ho). lia.
  - intros Hx%bool_decide_eq_true. destruct out; [simpl in Hi; lia|].
    assert (f :: out ≠ []) as Ho by done. specialize (Hboth Hx Ho). lia.
  - destruct mac as [|m mac]; cbn [length Nat.eqb negb].
    + rewrite Hscr by (by apply Hone). lia.
    + assert (m :: mac ≠ []) as Hm by done. specialize (Hmac Hm).
      simpl in Hmac. lia.
Qed.

Section split_facts.

Variable createSubjob : Job → Job.
Variables (self : RATSplitter.t) (job : Job).

Lemma getitem_lt {A} (l : list A) i :
  i < length l → ∃ x, l !! i = Some x ∧ getitem l i = inr x.
Proof.
  intros Hi. destruct (lookup_lt_is_Some_2 l i Hi) as [x Hx].
  exists x. unfold getitem. by rewrite Hx.
Qed.

Lemma split_body_in_range fin fout nMacro i :
  (fout = true → i < length (RATSplitter.outputFiles self)) →
  (fin = true → i < length (RATSplitter.inputFiles self)) →
  (if negb (nMacro =? 0) then i < length (RATSplitter.ratMacro self)
   else i < length (RATSplitter.prodScript self)) →
  ∃ j, RATSplitter.split_body createSubjob self job fin fout nMacro i = inr j
       ∧ body_post createSubjob self job fin fout nMacro i j.
Proof.
  intros Hout Hin Hrun. unfold RATSplitter.split_body, body_post.
  destruct fout, fin; simpl.
  all: try (destruct (getitem_lt _ _ (Hout eq_refl)) as (o & Ho & ->); simpl).
  all: try (destruct (getitem_lt _ _ (Hin eq_refl)) as (x & Hx & ->); simpl).
  all: destruct (negb (nMacro =? 0)).
  all: destruct (getitem_lt _ _ Hrun) as (r & Hr & ->); simpl.
  all: eexists; (split; [reflexivity|]); simpl; auto.
Qed.

Lemma split_loop_in_range fin fout nMacro range :
  (∀ i, i ∈ range →
     ∃ j, RATSplitter.split_body createSubjob self job fin fout nMacro i = inr j
          ∧ body_post createSubjob self job fin fout nMacro i j) →
  ∀ subjobs, ∃ new,
    RATSplitter.split_loop createSubjob self job fin fout nMacro range subjobs
      = inr (subjobs ++ new)
    ∧ Forall2 (body_post createSubjob self job fin fout nMacro) range new.
Proof.
  induction range as [|i range IH]; intros Hbody subjobs; simpl.
  - exists []. by rewrite app_nil_r.
  - destruct (Hbody i) as (j & -> & Hj); [set_solver|]. simpl.
    destruct (IH (fun k Hk => Hbody k (proj2 (elem_of_cons _ _ _) (or_intror Hk)))
                (subjobs ++ [j])) as (new & -> & Hnew).
    exists (j :: new). split; [by rewrite <- app_assoc | by constructor].
Qed.

(** The checks of [split], read off its code: either a rule is broken
    and [split] raises, or every rule holds and [split] is its loop over
    [range(fileCount)]. *)
Lemma split_cases :
  (violates_validation self ∧ ∃ e, RATSplitter.split createSubjob self job = inl e)
  ∨ (passes_validation self ∧ ¬ violates_validation self ∧
     RATSplitter.split createSubjob self job =
     RATSplitter.split_loop createSubjob self job
       (bool_decide (RATSplitter.inputFiles self ≠ []))
       (bool_decide (RATSplitter.outputFiles self ≠ []))
       (length (RATSplitter.ratMacro self)) (seq 0 (fileCount self)) []).
Proof.
  destruct self as [out inp scr mac].
  unfold violates_validation, passes_validation, fileCount, RATSplitter.split.
  cbn [RATSplitter.outputFiles RATSplitter.inputFiles RATSplitter.prodScript
       RATSplitter.ratMacro].
  destruct out as [|o out], inp as [|x inp], scr as [|s scr], mac as [|m mac];
    cbn [length Nat.eqb negb andb Nat.max];
    try (left; split; [solve [intuition congruence] | eexists; reflexivity]).
  all: repeat match goal with
       | |- context [?a =? ?b] => destruct (Nat.eqb_spec a b)
       end; cbn [negb andb].
  all: try (left; split; [| eexists; reflexivity]).
  all: first [ solve [intuition (congruence || lia)]
             | right; split_and!;
               [intuition (congruence || lia) .. | simpl; do 2 f_equal; lia] ].
Qed.

Lemma body_post_slice i j :
  passes_validation self →
  body_post createSubjob self job (bool_decide (RATSplitter.inputFiles self ≠ []))
    (bool_decide (RATSplitter.outputFiles self ≠ []))
    (length (RATSplitter.ratMacro self)) i j →
  is_slice self (createSubjob job) i j.
Proof.
  intros (Hone & _) (Hout & Hin & Hrun). unfold is_slice. split_and!.
  - intros Hne. by rewrite bool_decide_eq_true_2 in Hout.
  - intros Hne. by rewrite bool_decide_eq_true_2 in Hin.
  - intros Hne. destruct (RATSplitter.ratMacro self); done.
  - intros Hne%Hone. by rewrite Hne in Hrun.
Qed.

End split_facts.

(** Under the rules the loop of [split] runs to its end. *)
Lemma split_loop_passes (createSubjob : Job → Job) (self : RATSplitter.t) (job : Job) :
  passes_validation self →
  ∃ subjobs,
    RATSplitter.split_loop createSubjob self job
      (bool_decide (RATSplitter.inputFiles self ≠ []))
      (bool_decide (RATSplitter.outputFiles self ≠ []))
      (length (RATSplitter.ratMacro self)) (seq 0 (fileCount self)) [] = inr subjobs
    ∧ Forall2 (λ i j, is_slice self (createSubjob job) i j)
        (seq 0 (fileCount self)) subjobs.
Proof.
  intros Hok.
  destruct (split_loop_in_range createSubjob self job
              (bool_decide (RATSplitter.inputFiles self ≠ []))
              (bool_decide (RATSplitter.outputFiles self ≠ []))
              (length (RATSplitter.ratMacro self)) (seq 0 (fileCount self)))
    with (subjobs := @nil Job) as (new & -> & Hnew).
  { intros i [_ Hi]%elem_of_seq.
    destruct (passes_in_range self i Hok) as (Ho & Hx & Hr); [lia|].
    by apply split_body_in_range. }
  exists new. split; [done|].
  eapply Forall2_impl; [exact Hnew|].
  intros i j. by apply body_post_slice.
Qed.

(** C1.  A split request that passes validation is split into exactly
    [fileCount] sub-jobs, in ascending index order: the sub-job at
    position [i] is made from [createSubjob job], its [outputFiles] is
    entry [i] of the request's output sequence when that is non-empty,
    its [inputFiles] entry [i] of the input sequence when that is
    non-empty, and of [ratMacro] and [prodScript] exactly the one whose
    sequence is populated is set, to entry [i] of that sequence. *)
Theorem split_slices (createSubjob : Job → Job) (self : RATSplitter.t) (job : Job) :
  passes_validation self →
  ∃ subjobs,
    RATSplitter.split createSubjob self job = inr subjobs
    ∧ length subjobs = fileCount self
    ∧ ∀ i, i < fileCount self →
        ∃ j, subjobs !! i = Some j ∧ is_slice self (createSubjob job) i j.
Proof.
  intros Hok.
  destruct (split_cases createSubjob self job) as [[Hbad _] | (_ & _ & ->)].
  { by destruct (violates_not_passes self Hbad). }
  destruct (split_loop_passes createSubjob self job Hok) as (new & -> & Hnew).
  exists new. split; [done|].
  pose proof (Forall2_length _ _ _ Hnew) as Hlen. rewrite length_seq in Hlen.
  split; [done|]. intros i Hi.
  destruct (lookup_lt_is_Some_2 new i) as [j Hj]; [lia|].
  exists j. split; [done|].
  eapply (Forall2_lookup_lr _ _ _ i) in Hnew; [exact Hnew | | done].
  by rewrite lookup_seq_lt.
Qed.

Lemma two_files_pass : passes_validation two_files.
Proof.
  unfold passes_validation, fileCount, two_files; simpl.
  intuition (congruence || lia).
Qed.

Lemma split_slices_witness :
  ∃ subjobs,
    RATSplitter.split id two_files plain_job = inr subjobs
    ∧ length subjobs = fileCount two_files
    ∧ ∀ i, i < fileCount two_files →
        ∃ j, subjobs !! i = Some j ∧ is_slice two_files (id plain_job) i j.
Proof. exact (split_slices id two_files plain_job two_files_pass). Defined.

(** C2.  [split] raises exactly when a validation rule is broken: both
    of scripts and macros given, or neither; no input and no output
    files; input and output files both given with unequal lengths; or
    the populated one of scripts and macros differing in length from the
    file count.  Otherwise it returns its list of sub-jobs. *)
Theorem split_raises_iff (createSubjob : Job → Job) (self : RATSplitter.t) (job : Job) :
  ((∃ e, RATSplitter.split createSubjob self job = inl e) ↔ violates_validation self)
  ∧ ((∃ subjobs, RATSplitter.split createSubjob self job = inr subjobs)
     ↔ ¬ violates_validation self).
Proof.
  destruct (split_cases createSubjob self job) as [[Hbad [e He]] | (Hok & Hgood & Heq)].
  - split; split; try done.
    + by exists e.
    + intros [l Hl]. congruence.
  - destruct (split_loop_passes createSubjob self job Hok) as (l & Hl & _).
    rewrite <- Heq in Hl.
    split; split; try done.
    + intros [e He]. congruence.
    + by exists l.
Qed.

(** ** Strings *)

Lemma string_app_cons (c : ascii) (s t : string) :
  String c s +:+ t = String c (s +:+ t).
Proof. reflexivity. Qed.

Lemma string_app_nil_r (s : string) : s +:+ "" = s.
Proof. induction s as [|c s IH]; [done | by rewrite string_app_cons, IH]. Qed.

Lemma string_app_assoc (s t u : string) : (s +:+ t) +:+ u = s +:+ t +:+ u.
Proof. induction s as [|c s IH]; [done | by rewrite !string_app_cons, IH]. Qed.

Lemma string_length_app (s t : string) :
  String.length (s +:+ t) = String.length s + String.length t.
Proof. induction s as [|c s IH]; [done | by rewrite string_app_cons; simpl; rewrite IH]. Qed.

(** [(s + c)[:-1] == s] *)
Lemma drop_last_snoc (s : string) (c : ascii) : drop_last (s +:+ String c "") = s.
Proof.
  induction s as [|a s IH]; [done|].
  rewrite string_app_cons. destruct s as [|b s]; [done|].
  rewrite string_app_cons in *. simpl in *. by rewrite IH.
Qed.

(** ** The serialized file lists *)

Lemma add_entries_acc (acc : string) (vars : list string) :
  add_entries acc vars = acc +:+ add_entries "" vars.
Proof.
  revert acc. induction vars as [|var vars IH]; intros acc; simpl.
  - by rewrite string_app_nil_r.
  - rewrite IH, (IH ("" +:+ _)). by rewrite string_app_assoc.
Qed.

Lemma add_entries_concat (var : string) (vars : list string) :
  add_entries "" (var :: vars) = String.concat "," (var :: vars) +:+ ",".
Proof.
  revert var. induction vars as [|var' vars IH]; intros var; [done|].
  change (add_entries "" (var :: var' :: vars))
    with (add_entries (var +:+ ",") (var' :: vars)).
  rewrite add_entries_acc, IH.
  change (String.concat "," (var :: var' :: vars))
    with (var +:+ "," +:+ String.concat "," (var' :: vars)).
  by rewrite !string_app_assoc.
Qed.

Lemma file_list_cons (var : string) (vars : list string) :
  file_list (FList (var :: vars)) = "[" +:+ String.concat "," (var :: vars) +:+ "]".
Proof.
  unfold file_list, enumerate.
  rewrite add_entries_acc, add_entries_concat, <- string_app_assoc.
  rewrite drop_last_snoc, string_length_app.
  replace (String.length "," ) with 1 by done.
  rewrite Nat.add_1_r. simpl. by rewrite string_app_assoc.
Qed.

(** At the empty list the token is not the pair of brackets: the
    bracket opened by [foutList='['] is closed only under
    [if len(foutList)!=1], on the line commented "remove final comma,
    add close bracket", and for an empty list that line is not run. *)
Lemma file_list_empty_not_brackets : file_list (FList []) ≠ "[]".
Proof. discriminate. Qed.

(** C3.  What the handlers build as the list token.  For a list with at
    least one entry it is the entries joined by commas between brackets,
    with no trailing comma: [[a]] for one entry, [[a,b]] for two, as
    claimed.  For the empty list, the schema default of both file
    fields, it is the opening bracket alone, and not [[]] as claimed:
    the close bracket is missing. *)
Theorem file_list_rendering :
  file_list (FList []) = "["
  ∧ (∀ a, file_list (FList [a]) = "[" +:+ a +:+ "]")
  ∧ (∀ a b, file_list (FList [a; b]) = "[" +:+ a +:+ "," +:+ b +:+ "]")
  ∧ (∀ a l, file_list (FList (a :: l)) = "[" +:+ String.concat "," (a :: l) +:+ "]").
Proof.
  split_and!; [done | | | apply file_list_cons].
  - intros a. by rewrite file_list_cons.
  - intros a b. rewrite file_list_cons. simpl. by rewrite !string_app_assoc.
Qed.

(** ** The run file *)

Lemma str_split_last (s : string) :
  ∃ init name,
    str_split slash s = init ++ [name]
    ∧ (slash ∉ list_ascii_of_string name)
    ∧ ((init = [] ∧ s = name) ∨ (init ≠ [] ∧ ∃ dir, s = dir +:+ "/" +:+ name)).
Proof.
  induction s as [|c s (init & name & Hsplit & Hname & Hs)]; simpl.
  - exists [], "". split_and!; [done | apply not_elem_of_nil | by left].
  - rewrite Hsplit. case_decide as Hc.
    + subst c. exists ("" :: init), name. split_and!; [done..|].
      right. split; [done|].
      destruct Hs as [[_ ->] | [_ [dir ->]]]; [by exists "" | by exists (String "/" dir)].
    + destruct Hs as [[-> ->] | [Hinit [dir ->]]].
      * exists [], (String c name). split_and!; [done | | by left].
        simpl. apply not_elem_of_cons. split; [congruence | done].
      * destruct init as [|w ws]; [done|].
        exists (String c w :: ws), name. split_and!; [done..|].
        right. split; [done|]. by exists (String c dir).
Qed.

Lemma last_component_spec (path : string) :
  ∃ name, last_component path = inr name ∧ is_last_component path name.
Proof.
  destruct (str_split_last path) as (init & name & Hsplit & Hname & Hs).
  exists name. unfold last_component, getitem. rewrite Hsplit. split.
  - rewrite length_app, Nat.add_sub. simpl.
    by rewrite lookup_app_r, Nat.sub_diag by lia.
  - split; [done|]. destruct Hs as [[_ ->] | [_ Hdir]]; [by left | by right].
Qed.

Lemma run_file_spec (app : RATProd) :
  ∃ name,
    last_component (run_path app) = inr name
    ∧ is_last_component (run_path app) name
    ∧ run_file app =
      inr (if bool_decide (ratMacro app ≠ "")
           then (PyStr name, PyNone) else (PyNone, PyStr name)).
Proof.
  unfold run_file, run_path.
  destruct (String.eqb_spec (ratMacro app) "") as [Heq | Hne]; simpl.
  - rewrite bool_decide_eq_false_2 by (by intros []).
    destruct (last_component_spec (prodScript app)) as (name & Heq' & Hlast).
    exists name. by rewrite Heq'.
  - rewrite bool_decide_eq_true_2 by done.
    destruct (last_component_spec (ratMacro app)) as (name & Heq' & Hlast).
    exists name. by rewrite Heq'.
Qed.

(** C8.  The run file is the last slash-separated component of the macro
    path when [ratMacro] is set, and of the script path otherwise; it is
    [macroFile] in the first case and [prodFile] in the second, the
    other of the two staying [None]. *)
Theorem run_file_last_component (app : RATProd) :
  ∃ name,
    is_last_component
      (if bool_decide (ratMacro app ≠ "") then ratMacro app else prodScript app) name
    ∧ run_file app =
      inr (if bool_decide (ratMacro app ≠ "")
           then (PyStr name, PyNone) else (PyNone, PyStr name)).
Proof.
  destruct (run_file_spec app) as (name & _ & Hlast & Hrun).
  by exists name.
Qed.

(** ** Argument assembly on the local and batch backends *)

Lemma prepare_plain_eq (app_config : string → result pyval) (dir login : string)
    (can_write : string → bool) (w : World) (user pswd name protocol url : pyval) :
  let app := application (job w) in
  environment app = EnvNone →
  ratDirectory app ≠ "" →
  (useDB app = true → configured app_config user pswd name protocol url) →
  ∃ file,
    last_component (run_path app) = inr file
    ∧ is_last_component (run_path app) file
    ∧ RTHandler.prepare app_config dir login can_write w =
      (inr (StandardJobConfig (File (dir +:+ "/ratProdRunner.py"))
              (inputsandbox (job w)) (outputsandbox (job w))
              ([PyStr "-v"; PyStr (ratVersion app);
                PyStr "-s"; PyStr (ratDirectory app);
                PyStr "-d"; PyStr (outputDir app);
                PyStr "-o"; PyStr (file_list (outputFiles app));
                PyStr "-x"; PyStr (inputDir app);
                PyStr "-i"; PyStr (file_list (inputFiles app))]
               ++ (if bool_decide (ratMacro app ≠ "")
                   then [PyStr "-m"; PyStr file]
                   else [PyStr "-k"; PyStr "-m"; PyStr file])
               ++ (if useDB app then db_args user pswd name protocol url else [])
               ++ (if discardOutput app then [PyStr "--nostore"] else []))), w).
Proof.
  intros app Henv Hdir Hdb.
  destruct (run_file_spec app) as (file & Hfile & Hlast & Hrun).
  exists file. split_and!; [done..|].
  unfold RTHandler.prepare, mbind, get_app, gets, lift. fold app.
  destruct (String.eqb_spec (ratDirectory app) "") as [|_]; [done|].
  unfold ret at 1. rewrite Hrun, Henv. unfold RTHandler.prepare_plain, mbind.
  destruct (String.eqb_spec (ratMacro app) "") as [Heq | Hne].
  - rewrite bool_decide_eq_false_2 by (by intros []). simpl negb. cbv iota.
    destruct (useDB app).
    + destruct (Hdb eq_refl) as (-> & -> & -> & -> & ->). unfold lift, ret, gets.
      by destruct (discardOutput app).
    + unfold ret, gets. by destruct (discardOutput app).
  - rewrite bool_decide_eq_true_2 by done. simpl negb. cbv iota.
    destruct (useDB app).
    + destruct (Hdb eq_refl) as (-> & -> & -> & -> & ->). unfold lift, ret, gets.
      by destruct (discardOutput app).
    + unfold ret, gets. by destruct (discardOutput app).
Qed.

Lemma unset_config_configured :
  configured unset_config PyNone PyNone PyNone PyNone PyNone.
Proof. by repeat split. Qed.

(** C4.  With no environment override the local and batch handler hands
    the runner exactly this argument list: [-v] version, [-s] software
    directory, [-d] output directory, [-o] output list, [-x] input
    directory, [-i] input list, then [-m] run file in macro mode and
    [-k -m] run file in script mode, then the database tokens when and
    only when [useDB] is set, then [--nostore] when and only when
    [discardOutput] is set.  Nothing else is touched. *)
Theorem prepare_plain_order (app_config : string → result pyval) (dir login : string)
    (can_write : string → bool) (w : World) (user pswd name protocol url : pyval) :
  let app := application (job w) in
  environment app = EnvNone →
  ratDirectory app ≠ "" →
  (useDB app = true → configured app_config user pswd name protocol url) →
  ∃ file,
    is_last_component (run_path app) file
    ∧ RTHandler.prepare app_config dir login can_write w =
      (inr (StandardJobConfig (File (dir +:+ "/ratProdRunner.py"))
              (inputsandbox (job w)) (outputsandbox (job w))
              ([PyStr "-v"; PyStr (ratVersion app);
                PyStr "-s"; PyStr (ratDirectory app);
                PyStr "-d"; PyStr (outputDir app);
                PyStr "-o"; PyStr (file_list (outputFiles app));
                PyStr "-x"; PyStr (inputDir app);
                PyStr "-i"; PyStr (file_list (inputFiles app))]
               ++ (if bool_decide (ratMacro app ≠ "")
                   then [PyStr "-m"; PyStr file]
                   else [PyStr "-k"; PyStr "-m"; PyStr file])
               ++ (if useDB app then db_args user pswd name protocol url else [])
               ++ (if discardOutput app then [PyStr "--nostore"] else []))), w).
Proof.
  intros app Henv Hdir Hdb.
  destruct (prepare_plain_eq app_config dir login can_write w user pswd name protocol url
              Henv Hdir Hdb) as (file & _ & Hlast & Heq).
  by exists file.
Qed.

Lemma prepare_plain_order_witness :
  ∃ file,
    is_last_component "/macros/run.mac" file
    ∧ RTHandler.prepare unset_config "/opt/ganga" "snoprod" (λ _, true) macro_world =
      (inr (StandardJobConfig (File "/opt/ganga/ratProdRunner.py") [] []
              ([PyStr "-v"; PyStr "5"; PyStr "-s"; PyStr "/sw/snoing";
                PyStr "-d"; PyStr "out"; PyStr "-o"; PyStr "[o1.root,o2.root]";
                PyStr "-x"; PyStr "in"; PyStr "-i"; PyStr "[i1.root]"]
               ++ [PyStr "-m"; PyStr file]
               ++ db_args PyNone PyNone PyNone PyNone PyNone
               ++ [PyStr "--nostore"])), macro_world).
Proof.
  exact (prepare_plain_order unset_config "/opt/ganga" "snoprod" (λ _, true) macro_world
           PyNone PyNone PyNone PyNone PyNone eq_refl
           ltac:(discriminate) (λ _, unset_config_configured)).
Defined.

(** ** RATProd.configure *)

(** C6.  With [useDB] set and no password to be had from [config] (the
    lookup raises, or gives [None] or the empty string), [configure]
    raises and leaves the job, its sandboxes and the file system as they
    were; whatever is to run after it, a handler's [prepare] say, does
    not run. *)
Theorem configure_needs_password (config : string → result pyval) (w : World) :
  useDB (application (job w)) = true →
  (∀ v, config "rat_db_pswd" = inr v → truthy v = false) →
  ∃ e,
    configure config w = (inl e, w)
    ∧ ∀ prepare : M JobConfig,
        mbind (configure config) (λ _, prepare) w = (inl e, w).
Proof.
  intros Hdb Hpswd.
  assert (∃ e, configure config w = (inl e, w)) as [e He].
  { unfold configure, mbind, get_app, gets, lift, raise_if.
    destruct (String.eqb (prodScript _) "" && String.eqb (ratMacro _) "");
      [by eexists|].
    destruct (negb (String.eqb (prodScript _) "") && negb (String.eqb (ratMacro _) ""));
      [by eexists|].
    unfold ret at 1. rewrite Hdb.
    destruct (config "rat_db_pswd") as [e | v] eqn:Hv; [by eexists|].
    rewrite (Hpswd v eq_refl). by eexists. }
  exists e. split; [done|]. intros prepare. unfold mbind at 1. by rewrite He.
Qed.

Lemma configure_needs_password_witness :
  ∃ e,
    configure unset_config macro_world = (inl e, macro_world)
    ∧ ∀ prepare : M JobConfig,
        mbind (configure unset_config) (λ _, prepare) macro_world
        = (inl e, macro_world).
Proof.
  apply (configure_needs_password unset_config macro_world eq_refl).
  intros v [= <-]. reflexivity.
Defined.

(** C10.  A [configure] that gets past its checks returns [(None, None)]
    and leaves the application with [inputFiles] and [outputFiles] both
    lists: a field that held a lone string [s] now holds [[s]], a field
    that held a list is as it was, and so is every other field of the
    application. *)
Theorem configure_forces_lists (config : string → result pyval) (w : World) :
  configurable config (application (job w)) →
  ∃ w',
    configure config w = (inr (PyNone, PyNone), w')
    ∧ application (job w') =
      set_outputFiles (as_list (outputFiles (application (job w))))
        (set_inputFiles (as_list (inputFiles (application (job w))))
           (application (job w)))
    ∧ (∀ s, inputFiles (application (job w)) = FStr s →
            inputFiles (application (job w')) = FList [s])
    ∧ (∀ s, outputFiles (application (job w)) = FStr s →
            outputFiles (application (job w')) = FList [s])
    ∧ ∃ ins outs,
        inputFiles (application (job w')) = FList ins
        ∧ outputFiles (application (job w')) = FList outs.
Proof.
  destruct w as [[app ins outs be] fs]. simpl. intros [Hone Hdb].
  unfold configure, mbind, get_app, gets, lift, raise_if. simpl.
  assert (String.eqb (prodScript app) "" = negb (String.eqb (ratMacro app) ""))
    as Hmode.
  { destruct (String.eqb_spec (prodScript app) ""),
      (String.eqb_spec (ratMacro app) ""); simpl; tauto. }
  rewrite Hmode. clear Hmode Hone.
  destruct (String.eqb (ratMacro app) ""); simpl; unfold ret at 1; simpl.
  all: destruct (useDB app);
    [destruct (Hdb eq_refl) as (v & -> & ->) | clear Hdb]; simpl.
  all: destruct (inputFiles app) eqn:Hin, (outputFiles app) eqn:Hout.
  all: repeat (progress (simpl; rewrite ?Hin, ?Hout)).
  all: eexists; (split; [reflexivity|]); simpl.
  all: split_and!; try done; try (by intros ? [= ->]); try (by eexists _, _).
  all: destruct app; simpl in *; by subst.
Qed.

Lemma configure_forces_lists_witness :
  ∃ w',
    configure unset_config string_fields_world = (inr (PyNone, PyNone), w')
    ∧ application (job w') =
      set_outputFiles (as_list (FStr "o1.root"))
        (set_inputFiles (as_list (FStr "f1.root")) string_fields_app)
    ∧ (∀ s, FStr "f1.root" = FStr s →
            inputFiles (application (job w')) = FList [s])
    ∧ (∀ s, FStr "o1.root" = FStr s →
            outputFiles (application (job w')) = FList [s])
    ∧ ∃ ins outs,
        inputFiles (application (job w')) = FList ins
        ∧ outputFiles (application (job w')) = FList outs.
Proof.
  apply (configure_forces_lists unset_config string_fields_world).
  split; simpl; [split; [discriminate | intros H; by destruct H] | discriminate].
Defined.

(** ** Argument assembly on the grid backends *)

Lemma string_app_nil_l (s : string) : "" +:+ s = s.
Proof. reflexivity. Qed.

Ltac flatten_strings :=
  rewrite ?string_app_assoc, ?string_app_nil_l, ?string_app_nil_r.

Lemma wg_prepare_eq (app_config : string → result pyval) (dir : string)
    (environ : gmap string string) (os_path_exists : string → bool)
    (w : World) (proxy : string) (user pswd name protocol url : pyval) :
  let app := application (job w) in
  ratDirectory app ≠ "" →
  resolved_proxy (backend (job w)) environ = Some proxy →
  os_path_exists proxy = true →
  (useDB app = true → configured app_config user pswd name protocol url) →
  ∃ file,
    last_component (run_path app) = inr file
    ∧ WGRTHandler.prepare app_config dir environ os_path_exists w =
      (inr (StandardJobConfig (File (dir +:+ "/sillyPythonWrapper.py"))
              (inputsandbox (job w) ++ [SbStr (dir +:+ "/ratProdRunner.py")])
              (outputsandbox (job w))
              [PyStr "-s"; PyStr "ratProdRunner.py"; PyStr "-l"; PyStr "wg";
               PyStr "-a";
               PyStr ("-g srm " +:+ common_string app (ratDirectory app) file +:+
                      "--voproxy " +:+ proxy +:+ " " +:+
                      (if useDB app then db_string user pswd name protocol url
                       else "") +:+
                      (if discardOutput app then "--nostore " else ""))]),
       mkWorld
         (set_inputsandbox
            (inputsandbox (job w) ++ [SbStr (dir +:+ "/ratProdRunner.py")]) (job w))
         (filesystem w)).
Proof.
  intros app Hdir Hproxy Hexists Hdb.
  destruct (run_file_spec app) as (file & Hfile & _ & Hrun).
  exists file. split; [done|].
  unfold WGRTHandler.prepare, mbind, get_app, gets, lift, raise_if. fold app.
  destruct (String.eqb_spec (ratDirectory app) "") as [|_]; [done|].
  unfold ret at 1.
  assert (match voproxy (backend (job w)) with
          | PyNone =>
            match environ !! "X509_USER_PROXY" with
            | Some p => ret p
            | None =>
              raise (Exception "Cannot run without voproxy either in environment (X509_USER_PROXY) or specified for WG backend")
            end
          | PyStr p => ret p
          end w = (inr proxy, w)) as ->.
  { unfold resolved_proxy in Hproxy.
    destruct (voproxy (backend (job w))); [by rewrite Hproxy | by injection Hproxy as ->]. }
  rewrite Hexists. simpl negb. cbv iota. unfold ret at 1. rewrite Hrun.
  unfold common_string, db_string, inputsandbox_append, modify_job.
  destruct (String.eqb_spec (ratMacro app) "") as [Heq | Hne].
  - rewrite bool_decide_eq_false_2 by (by intros []). simpl negb. cbv iota.
    destruct (useDB app).
    + destruct (Hdb eq_refl) as (-> & -> & -> & -> & ->). unfold lift, ret, gets.
      destruct (discardOutput app); simpl; flatten_strings; reflexivity.
    + unfold ret, gets.
      destruct (discardOutput app); simpl; flatten_strings; reflexivity.
  - rewrite bool_decide_eq_true_2 by done. simpl negb. cbv iota.
    destruct (useDB app).
    + destruct (Hdb eq_refl) as (-> & -> & -> & -> & ->). unfold lift, ret, gets.
      destruct (discardOutput app); simpl; flatten_strings; reflexivity.
    + unfold ret, gets.
      destruct (discardOutput app); simpl; flatten_strings; reflexivity.
Qed.

Lemma lcg_prepare_eq (app_config : string → result pyval) (dir : string)
    (w : World) (user pswd name protocol url : pyval) :
  let app := application (job w) in
  (useDB app = true → configured app_config user pswd name protocol url) →
  ∃ file,
    last_component (run_path app) = inr file
    ∧ LCGRTHandler.prepare app_config dir w =
      (inr (LCGJobConfig (File (dir +:+ "/sillyPythonWrapper.py"))
              (inputsandbox (job w) ++ [SbStr (dir +:+ "/ratProdRunner.py")])
              (outputsandbox (job w))
              [PyStr "-s"; PyStr "ratProdRunner.py"; PyStr "-l"; PyStr "lcg";
               PyStr "-a";
               PyStr (dquote +:+
                      ("-g lcg " +:+ common_string app (lcg_swDir app) file +:+
                       (if useDB app then db_string user pswd name protocol url
                        else "") +:+
                       (if discardOutput app then "--nostore " else "")) +:+
                      dquote)]),
       mkWorld
         (set_inputsandbox
            (inputsandbox (job w) ++ [SbStr (dir +:+ "/ratProdRunner.py")])
            (set_backend
               (mkBackend (voproxy (backend (job w)))
                  (PyStr ("VO-snoplus.snolab.ca-rat-" +:+ ratVersion app)))
               (job w)))
         (filesystem w)).
Proof.
  intros app Hdb.
  destruct (run_file_spec app) as (file & Hfile & _ & Hrun).
  exists file. split; [done|].
  unfold LCGRTHandler.prepare, mbind, get_app, gets, lift, modify_job. fold app.
  rewrite Hrun.
  unfold common_string, db_string, lcg_swDir, inputsandbox_append, modify_job.
  replace (String.eqb (ratDirectory app) "")
    with (bool_decide (ratDirectory app = ""))
    by (destruct (String.eqb_spec (ratDirectory app) "");
        [by rewrite bool_decide_eq_true_2 | by rewrite bool_decide_eq_false_2]).
  destruct (String.eqb_spec (ratMacro app) "") as [Heq | Hne].
  - rewrite bool_decide_eq_false_2 by (by intros []). simpl negb. cbv iota.
    destruct (useDB app).
    + destruct (Hdb eq_refl) as (-> & -> & -> & -> & ->). unfold lift, ret, gets.
      destruct (discardOutput app); simpl; flatten_strings; reflexivity.
    + unfold ret, gets.
      destruct (discardOutput app); simpl; flatten_strings; reflexivity.
  - rewrite bool_decide_eq_true_2 by done. simpl negb. cbv iota.
    destruct (useDB app).
    + destruct (Hdb eq_refl) as (-> & -> & -> & -> & ->). unfold lift, ret, gets.
      destruct (discardOutput app); simpl; flatten_strings; reflexivity.
    + unfold ret, gets.
      destruct (discardOutput app); simpl; flatten_strings; reflexivity.
Qed.

(** C9.  On the grid backends the argument string starts with the grid
    protocol, [-g srm] on WestGrid and [-g lcg] on LCG, before the
    version tag and everything else; on WestGrid [--voproxy] and the
    proxy path come after the run file and before the database tokens;
    and the whole string is one argument, after [-a], of the wrapper
    [sillyPythonWrapper.py], whose arguments name the runner after [-s]
    and the launcher kind after [-l]: [wg], and [lcg] with the string
    between double quotes. *)
Theorem grid_arguments_wrapped (app_config : string → result pyval) (dir : string)
    (environ : gmap string string) (os_path_exists : string → bool)
    (w : World) (proxy : string) (user pswd name protocol url : pyval) :
  let app := application (job w) in
  (useDB app = true → configured app_config user pswd name protocol url) →
  ∃ file,
    is_last_component (run_path app) file
    ∧ (ratDirectory app ≠ "" →
       resolved_proxy (backend (job w)) environ = Some proxy →
       os_path_exists proxy = true →
       fst (WGRTHandler.prepare app_config dir environ os_path_exists w) =
       inr (StandardJobConfig (File (dir +:+ "/sillyPythonWrapper.py"))
              (inputsandbox (job w) ++ [SbStr (dir +:+ "/ratProdRunner.py")])
              (outputsandbox (job w))
              [PyStr "-s"; PyStr "ratProdRunner.py"; PyStr "-l"; PyStr "wg";
               PyStr "-a";
               PyStr ("-g srm " +:+ common_string app (ratDirectory app) file +:+
                      "--voproxy " +:+ proxy +:+ " " +:+
                      (if useDB app then db_string user pswd name protocol url
                       else "") +:+
                      (if discardOutput app then "--nostore " else ""))]))
    ∧ fst (LCGRTHandler.prepare app_config dir w) =
      inr (LCGJobConfig (File (dir +:+ "/sillyPythonWrapper.py"))
             (inputsandbox (job w) ++ [SbStr (dir +:+ "/ratProdRunner.py")])
             (outputsandbox (job w))
             [PyStr "-s"; PyStr "ratProdRunner.py"; PyStr "-l"; PyStr "lcg";
              PyStr "-a";
              PyStr (dquote +:+
                     ("-g lcg " +:+ common_string app (lcg_swDir app) file +:+
                      (if useDB app then db_string user pswd name protocol url
                       else "") +:+
                      (if discardOutput app then "--nostore " else "")) +:+
                     dquote)]).
Proof.
  intros app Hdb.
  destruct (run_file_spec app) as (file & Hfile & Hlast & _).
  exists file. split_and!; [done | |].
  - intros Hdir Hproxy Hexists.
    destruct (wg_prepare_eq app_config dir environ os_path_exists w proxy
                user pswd name protocol url Hdir Hproxy Hexists Hdb)
      as (file' & Hfile' & ->).
    unfold app in *. by assert (file' = file) as -> by congruence.
  - destruct (lcg_prepare_eq app_config dir w user pswd name protocol url Hdb)
      as (file' & Hfile' & ->).
    unfold app in *. by assert (file' = file) as -> by congruence.
Qed.

Lemma grid_arguments_wrapped_witness :
  ∃ file,
    is_last_component "/macros/run.mac" file
    ∧ fst (WGRTHandler.prepare unset_config "/opt/ganga" ∅ (λ _, true) westgrid_world) =
      inr (StandardJobConfig (File "/opt/ganga/sillyPythonWrapper.py")
             [SbStr "/opt/ganga/ratProdRunner.py"] []
             [PyStr "-s"; PyStr "ratProdRunner.py"; PyStr "-l"; PyStr "wg";
              PyStr "-a";
              PyStr ("-g srm " +:+ common_string macro_app "/sw/snoing" file +:+
                     "--voproxy " +:+ "/tmp/x509up_u1000" +:+ " " +:+
                     db_string PyNone PyNone PyNone PyNone PyNone +:+
                     "--nostore ")])
    ∧ fst (LCGRTHandler.prepare unset_config "/opt/ganga" westgrid_world) =
      inr (LCGJobConfig (File "/opt/ganga/sillyPythonWrapper.py")
             [SbStr "/opt/ganga/ratProdRunner.py"] []
             [PyStr "-s"; PyStr "ratProdRunner.py"; PyStr "-l"; PyStr "lcg";
              PyStr "-a";
              PyStr (dquote +:+
                     ("-g lcg " +:+ common_string macro_app "/sw/snoing" file +:+
                      db_string PyNone PyNone PyNone PyNone PyNone +:+
                      "--nostore ") +:+
                     dquote)]).
Proof.
  destruct (grid_arguments_wrapped unset_config "/opt/ganga" ∅ (λ _, true)
              westgrid_world "/tmp/x509up_u1000" PyNone PyNone PyNone PyNone PyNone
              (λ _, unset_config_configured)) as (file & Hlast & Hwg & Hlcg).
  exists file. split; [exact Hlast|]. split; [|exact Hlcg].
  apply Hwg; [discriminate | reflexivity | reflexivity].
Defined.

(** ** The software directory *)

(** C7, the claim as stated fails on the LCG handler: with an empty
    [ratDirectory] its [prepare] returns a job configuration. *)
Lemma lcg_prepare_without_directory :
  ratDirectory (application (job no_directory_world)) = ""
  ∧ ∃ c, fst (LCGRTHandler.prepare unset_config "/opt/ganga" no_directory_world)
         = inr c.
Proof. split; [reflexivity | eexists; vm_compute; reflexivity]. Qed.

(** C7, as the code has it.  With an empty [ratDirectory] the handler of
    the local and batch backends and the WestGrid handler raise, after
    logging that a RAT directory must be given, and leave the job, its
    sandboxes and the file system untouched; the LCG handler does not
    raise: it passes the default
    [$VO_SNOPLUS_SNOLAB_CA_SW_DIR/snoing-install] after [-s]. *)
Theorem prepare_without_directory (w : World) :
  let app := application (job w) in
  ratDirectory app = "" →
  (∀ app_config dir login can_write,
     RTHandler.prepare app_config dir login can_write w =
     (inl (Exception "Must specify a RAT directory"), w))
  ∧ (∀ app_config dir environ os_path_exists,
       WGRTHandler.prepare app_config dir environ os_path_exists w =
       (inl (Exception "Must specify a RAT directory"), w))
  ∧ (∀ app_config dir user pswd name protocol url,
       (useDB app = true → configured app_config user pswd name protocol url) →
       ∃ file exe inputbox outputbox,
         fst (LCGRTHandler.prepare app_config dir w) =
         inr (LCGJobConfig exe inputbox outputbox
                [PyStr "-s"; PyStr "ratProdRunner.py"; PyStr "-l"; PyStr "lcg";
                 PyStr "-a";
                 PyStr (dquote +:+
                        ("-g lcg " +:+
                         common_string app
                           "$VO_SNOPLUS_SNOLAB_CA_SW_DIR/snoing-install" file +:+
                         (if useDB app then db_string user pswd name protocol url
                          else "") +:+
                         (if discardOutput app then "--nostore " else "")) +:+
                        dquote)])).
Proof.
  intros app Hdir. split_and!.
  - intros app_config dir login can_write.
    unfold RTHandler.prepare, mbind, get_app, gets. fold app. by rewrite Hdir.
  - intros app_config dir environ os_path_exists.
    unfold WGRTHandler.prepare, mbind, get_app, gets. fold app. by rewrite Hdir.
  - intros app_config dir user pswd name protocol url Hdb.
    destruct (lcg_prepare_eq app_config dir w user pswd name protocol url Hdb)
      as (file & _ & ->).
    exists file. eexists _, _, _. simpl. unfold lcg_swDir. fold app.
    by rewrite bool_decide_eq_true_2.
Qed.

Lemma prepare_without_directory_witness :
  (∀ app_config dir login can_write,
     RTHandler.prepare app_config dir login can_write no_directory_world =
     (inl (Exception "Must specify a RAT directory"), no_directory_world))
  ∧ (∀ app_config dir environ os_path_exists,
       WGRTHandler.prepare app_config dir environ os_path_exists no_directory_world =
       (inl (Exception "Must specify a RAT directory"), no_directory_world))
  ∧ (∀ app_config dir user pswd name protocol url,
       (false = true → configured app_config user pswd name protocol url) →
       ∃ file exe inputbox outputbox,
         fst (LCGRTHandler.prepare app_config dir no_directory_world) =
         inr (LCGJobConfig exe inputbox outputbox
                [PyStr "-s"; PyStr "ratProdRunner.py"; PyStr "-l"; PyStr "lcg";
                 PyStr "-a";
                 PyStr (dquote +:+
                        ("-g lcg " +:+
                         common_string no_directory_app
                           "$VO_SNOPLUS_SNOLAB_CA_SW_DIR/snoing-install" file +:+
                         "" +:+ "") +:+
                        dquote)])).
Proof. exact (prepare_without_directory no_directory_world eq_refl). Defined.

(** * Further properties *)

(** ** The splitter: errors *)

(** X1.  Which rule [split] reports: both of scripts and macros given,
    whatever the files are; neither given; then, with exactly one of
    them given, no files at all; input and output files of unequal
    number; and last a number of scripts, or of macros, that is not the
    file count.  Each is a logged [Exception]; no index is ever out of
    range. *)
Theorem split_error_messages (createSubjob : Job → Job) (self : RATSplitter.t)
    (job : Job) :
  let scripts := RATSplitter.prodScript self in
  let macros := RATSplitter.ratMacro self in
  let ins := RATSplitter.inputFiles self in
  let outs := RATSplitter.outputFiles self in
  (scripts ≠ [] → macros ≠ [] →
   RATSplitter.split createSubjob self job =
   inl (Exception "cannot provide both scripts and macros, must be either or"))
  ∧ (scripts = [] → macros = [] →
     RATSplitter.split createSubjob self job =
     inl (Exception "must provide EITHER macros or scripts"))
  ∧ ((scripts ≠ [] ↔ macros = []) → ins = [] → outs = [] →
     RATSplitter.split createSubjob self job =
     inl (Exception "Why are you splitting?"))
  ∧ ((scripts ≠ [] ↔ macros = []) → ins ≠ [] → outs ≠ [] →
     length ins ≠ length outs →
     RATSplitter.split createSubjob self job =
     inl (Exception "input/output numbers dont match"))
  ∧ (scripts ≠ [] → macros = [] → fileCount self ≠ 0 →
     (ins ≠ [] → outs ≠ [] → length ins = length outs) →
     length scripts ≠ fileCount self →
     RATSplitter.split createSubjob self job =
     inl (Exception "script/file numbers dont match"))
  ∧ (macros ≠ [] → scripts = [] → fileCount self ≠ 0 →
     (ins ≠ [] → outs ≠ [] → length ins = length outs) →
     length macros ≠ fileCount self →
     RATSplitter.split createSubjob self job =
     inl (Exception "macro/file numbers dont match"))
  ∧ RATSplitter.split createSubjob self job ≠ inl IndexError.
Proof.
  destruct self as [out inp scr mac]. unfold fileCount, RATSplitter.split.
  cbn [RATSplitter.outputFiles RATSplitter.inputFiles RATSplitter.prodScript
       RATSplitter.ratMacro].
  assert (∀ fin fout n e,
            RATSplitter.split_loop createSubjob (RATSplitter.mk out inp scr mac)
              job fin fout (length mac) (seq 0 n) [] = inl e →
            fin = bool_decide (inp ≠ []) → fout = bool_decide (out ≠ []) →
            n = length inp `max` length out →
            passes_validation (RATSplitter.mk out inp scr mac) → False) as Hloop.
  { intros fin fout n e He -> -> -> Hok.
    destruct (split_loop_passes createSubjob _ job Hok) as (l & Hl & _).
    unfold fileCount in Hl. simpl in Hl. congruence. }
  destruct out as [|o out], inp as [|x inp], scr as [|s scr], mac as [|m mac];
    cbn [length Nat.eqb negb andb Nat.max] in *;
    try (split_and!; (done || (intros; exfalso; intuition (congruence || lia)))).
  all: repeat match goal with
       | |- context [?a =? ?b] => destruct (Nat.eqb_spec a b)
       end; cbn [negb andb].
  all: split_and!; try done;
    try (intros; exfalso; intuition (congruence || lia)).
  all: intros He; apply (Hloop _ _ _ _ He); try done; try (simpl; lia).
  all: unfold passes_validation, fileCount; simpl; intuition (congruence || lia).
Qed.

(** ** The splitter: what the sub-jobs are *)

(** X2.  A request that passes validation is never split into nothing:
    there is a first sub-job, and there are as many sub-jobs as there
    are scripts, or macros. *)
Theorem split_nonempty (createSubjob : Job → Job) (self : RATSplitter.t) (job : Job) :
  passes_validation self →
  ∃ j subjobs,
    RATSplitter.split createSubjob self job = inr (j :: subjobs)
    ∧ length (j :: subjobs) =
      length (RATSplitter.prodScript self) + length (RATSplitter.ratMacro self).
Proof.
  intros Hok.
  destruct (split_cases createSubjob self job) as [[Hbad _] | (_ & _ & ->)].
  { by destruct (violates_not_passes self Hbad). }
  destruct (split_loop_passes createSubjob self job Hok) as (new & -> & Hnew).
  apply Forall2_length in Hnew. rewrite length_seq in Hnew.
  assert (fileCount self =
          length (RATSplitter.prodScript self) + length (RATSplitter.ratMacro self)
          ∧ fileCount self ≠ 0) as [Hcount Hpos].
  { destruct Hok as (Hone & Hsome & _ & Hscr & Hmac). unfold fileCount in *.
    destruct (RATSplitter.prodScript self) as [|s scr],
      (RATSplitter.ratMacro self) as [|m mac],
      (RATSplitter.inputFiles self), (RATSplitter.outputFiles self);
      simpl in *; intuition (congruence || lia). }
  destruct new as [|j new]; simpl in Hnew; [lia|].
  exists j, new. split; [done|]. simpl. lia.
Qed.

Lemma split_nonempty_witness :
  ∃ j subjobs,
    RATSplitter.split id two_files plain_job = inr (j :: subjobs)
    ∧ length (j :: subjobs) =
      length (RATSplitter.prodScript two_files) + length (RATSplitter.ratMacro two_files).
Proof. exact (split_nonempty id two_files plain_job two_files_pass). Defined.

Lemma set_application_same (j : Job) : set_application (application j) j = j.
Proof. by destruct j. Qed.

Lemma split_body_inherits (createSubjob : Job → Job) (self : RATSplitter.t)
    (job : Job) (fin fout : bool) (nMacro i : nat) (j : Job) :
  RATSplitter.split_body createSubjob self job fin fout nMacro i = inr j →
  differs_in_split_fields (createSubjob job) j
  ∧ (fin = false →
     inputFiles (application j) = inputFiles (application (createSubjob job)))
  ∧ (fout = false →
     outputFiles (application j) = outputFiles (application (createSubjob job))).
Proof.
  unfold RATSplitter.split_body, differs_in_split_fields, rbind.
  destruct (createSubjob job) as [[] ins outs be].
  destruct fout, fin, (negb (nMacro =? 0));
    repeat match goal with
           | |- context [getitem ?l ?i] => destruct (getitem l i)
           end; simpl; intros [= <-]; done.
Qed.

Lemma split_loop_Forall (createSubjob : Job → Job) (self : RATSplitter.t)
    (job : Job) (fin fout : bool) (nMacro : nat) (P : Job → Prop) :
  (∀ i j, RATSplitter.split_body createSubjob self job fin fout nMacro i = inr j → P j) →
  ∀ range subjobs result,
    Forall P subjobs →
    RATSplitter.split_loop createSubjob self job fin fout nMacro range subjobs
      = inr result →
    Forall P result.
Proof.
  intros Hbody. induction range as [|i range IH]; intros subjobs result Hacc; simpl.
  - by intros [= <-].
  - unfold rbind at 1.
    destruct (RATSplitter.split_body createSubjob self job fin fout nMacro i)
      as [e | j] eqn:Hj; [done|].
    apply IH. apply Forall_app. split; [done|]. constructor; [|done].
    by apply (Hbody i).
Qed.

(** X3.  Every sub-job of a split is the job [createSubjob] made, but
    for the four fields a split sets: nothing outside the application
    is changed, and within it nothing but [outputFiles], [inputFiles],
    [ratMacro] and [prodScript]; of the first two, the one the request
    gives no sequence for stays as [createSubjob] made it. *)
Theorem split_inherits (createSubjob : Job → Job) (self : RATSplitter.t) (job : Job)
    (subjobs : list Job) :
  RATSplitter.split createSubjob self job = inr subjobs →
  Forall (λ j,
    differs_in_split_fields (createSubjob job) j
    ∧ (RATSplitter.inputFiles self = [] →
       inputFiles (application j) = inputFiles (application (createSubjob job)))
    ∧ (RATSplitter.outputFiles self = [] →
       outputFiles (application j) = outputFiles (application (createSubjob job))))
    subjobs.
Proof.
  intros Hsplit.
  destruct (split_cases createSubjob self job) as [[_ [e He]] | (_ & _ & Heq)];
    [congruence|].
  rewrite Heq in Hsplit.
  eapply split_loop_Forall; [| by apply Forall_nil | exact Hsplit].
  intros i j Hj. destruct (split_body_inherits _ _ _ _ _ _ _ _ Hj) as (? & Hin & Hout).
  split_and!; [done | |].
  - intros Hnil. apply Hin. by rewrite Hnil.
  - intros Hnil. apply Hout. by rewrite Hnil.
Qed.

Lemma split_inherits_witness :
  Forall (λ j,
    differs_in_split_fields (id plain_job) j
    ∧ (RATSplitter.inputFiles outputs_only = [] →
       inputFiles (application j) = inputFiles (application (id plain_job)))
    ∧ (RATSplitter.outputFiles outputs_only = [] →
       outputFiles (application j) = outputFiles (application (id plain_job))))
    [set_application
       (set_ratMacro "m1.mac" (set_outputFiles (FList ["o1.root"]) RATProd_default))
       plain_job;
     set_application
       (set_ratMacro "m2.mac"
          (set_outputFiles (FList ["o2.root"; "o3.root"]) RATProd_default))
       plain_job].
Proof. exact (split_inherits id outputs_only plain_job _ eq_refl). Defined.

(** ** Effects of the monadic code *)

Lemma readonly_ret {A} (x : A) : readonly (ret x).
Proof. by intros w. Qed.

Lemma readonly_raise {A} (e : exn) : readonly (@raise A e).
Proof. by intros w. Qed.

Lemma readonly_lift {A} (r : result A) : readonly (lift r).
Proof. by intros w. Qed.

Lemma readonly_gets {A} (f : World → A) : readonly (gets f).
Proof. by intros w. Qed.

Lemma readonly_bind {A B} (m : M A) (k : A → M B) :
  readonly m → (∀ x, readonly (k x)) → readonly (mbind m k).
Proof.
  intros Hm Hk w. unfold mbind. specialize (Hm w).
  destruct (m w) as [[e | x] w']; simpl in *; subst w'; [done | apply Hk].
Qed.

Lemma nofail_ret {A} (x : A) : nofail (ret x).
Proof. intros w. by exists x. Qed.

Lemma nofail_gets {A} (f : World → A) : nofail (gets f).
Proof. intros w. by eexists. Qed.

Lemma nofail_modify_job (f : Job → Job) : nofail (modify_job f).
Proof. intros w. by eexists. Qed.

Lemma nofail_bind {A B} (m : M A) (k : A → M B) :
  nofail m → (∀ x, nofail (k x)) → nofail (mbind m k).
Proof.
  intros Hm Hk w. unfold mbind. destruct (Hm w) as [x Hx].
  destruct (m w) as [[e | x'] w']; simpl in *; [done | apply Hk].
Qed.

Lemma atomic_readonly {A} (m : M A) : readonly m → atomic m.
Proof. intros Hm w e w' Heq. specialize (Hm w). by rewrite Heq in Hm. Qed.

Lemma atomic_nofail {A} (m : M A) : nofail m → atomic m.
Proof. intros Hm w e w' Heq. destruct (Hm w) as [x Hx]. by rewrite Heq in Hx. Qed.

Lemma atomic_bind {A B} (m : M A) (k : A → M B) :
  readonly m → (∀ x, atomic (k x)) → atomic (mbind m k).
Proof.
  intros Hm Hk w e w'. unfold mbind. specialize (Hm w).
  destruct (m w) as [[e' | x] w'']; simpl in *; subst w''.
  - by intros [= _ <-].
  - apply Hk.
Qed.

Ltac readonly_steps :=
  repeat first
    [ apply readonly_ret | apply readonly_raise | apply readonly_lift
    | apply readonly_gets | apply readonly_bind; [|intros ?]
    | match goal with
      | |- readonly (if ?c then _ else _) => destruct c
      | |- readonly (match ?x with _ => _ end) => destruct x
      | |- readonly (raise_if _ _) => unfold raise_if
      | |- readonly get_app => unfold get_app
      end ].

Ltac nofail_steps :=
  repeat first
    [ apply nofail_ret | apply nofail_gets | apply nofail_modify_job
    | apply nofail_bind; [|intros ?]
    | match goal with
      | |- nofail (if ?c then _ else _) => destruct c
      | |- nofail (match ?x with _ => _ end) => destruct x
      | |- nofail (inputsandbox_append _) => unfold inputsandbox_append
      | |- nofail (outputsandbox_append _) => unfold outputsandbox_append
      | |- nofail get_app => unfold get_app
      end ].

(** ** RATProd.configure: errors and effects *)

(** X4.  Why [configure] raises, and with what: neither of script and
    macro set; both set; then, with the database in use, the exception
    of a [config] that cannot be read, and the missing password.  In
    each case the job is left as it was. *)
Theorem configure_errors (config : string → result pyval) (w : World) :
  let app := application (job w) in
  (prodScript app = "" → ratMacro app = "" →
   configure config w = (inl (Exception "prodScript or ratMacro not defined"), w))
  ∧ (prodScript app ≠ "" → ratMacro app ≠ "" →
     configure config w =
     (inl (Exception "both prodScript and ratMacro are defined"), w))
  ∧ ((prodScript app = "" ↔ ratMacro app ≠ "") → useDB app = true →
     ∀ e, config "rat_db_pswd" = inl e → configure config w = (inl e, w))
  ∧ ((prodScript app = "" ↔ ratMacro app ≠ "") → useDB app = true →
     ∀ v, config "rat_db_pswd" = inr v → truthy v = false →
     configure config w =
     (inl (Exception "Need a password in order to contact the ratdb database"), w)).
Proof.
  intros app. unfold configure, mbind, get_app, gets, lift, raise_if. fold app.
  destruct (String.eqb_spec (prodScript app) ""), (String.eqb_spec (ratMacro app) "");
    simpl; split_and!; try done; try tauto.
  all: intros _ Hdb; rewrite Hdb.
  all: try (intros e' He; by rewrite He).
  all: intros v Hv Ht; rewrite Hv; simpl; by rewrite Ht.
Qed.

(** X5.  [configure] does all or nothing: when it raises, the job, its
    sandboxes and its application are as they were. *)
Theorem configure_atomic (config : string → result pyval) (w w' : World) (e : exn) :
  configure config w = (inl e, w') → w' = w.
Proof.
  revert w e w'. change (atomic (configure config)). unfold configure.
  apply atomic_bind; [readonly_steps | intros self].
  apply atomic_bind; [readonly_steps | intros _].
  apply atomic_bind; [readonly_steps | intros _].
  apply atomic_nofail. nofail_steps.
Qed.

Lemma configure_atomic_witness :
  configure unset_config macro_world =
  (inl (Exception "Need a password in order to contact the ratdb database"),
   macro_world)
  ∧ macro_world = macro_world.
Proof.
  split; [reflexivity|].
  exact (configure_atomic unset_config macro_world macro_world _ eq_refl).
Defined.

Lemma configure_ok_eq (config : string → result pyval) (w : World) :
  configurable config (application (job w)) →
  configure config w = (inr (PyNone, PyNone), configured_world w).
Proof.
  destruct w as [[app ins outs be] fs]. unfold configured_world. simpl.
  intros [Hone Hdb].
  unfold configure, mbind, get_app, gets, lift, raise_if, run_path,
    configure_outputs. simpl.
  assert (String.eqb (prodScript app) "" = negb (String.eqb (ratMacro app) ""))
    as Hmode.
  { destruct (String.eqb_spec (prodScript app) ""),
      (String.eqb_spec (ratMacro app) ""); simpl; tauto. }
  rewrite Hmode. clear Hmode Hone.
  destruct (String.eqb_spec (ratMacro app) "") as [Hm | Hm]; simpl; unfold ret at 1;
    [rewrite bool_decide_eq_false_2 by (by intros []) |
     rewrite bool_decide_eq_true_2 by done]; simpl.
  all: destruct (useDB app);
    [destruct (Hdb eq_refl) as (v & -> & ->) | clear Hdb]; simpl.
  all: destruct (inputFiles app) eqn:Hin, (outputFiles app) eqn:Hout.
  all: repeat (progress (simpl; rewrite ?Hin, ?Hout)).
  all: unfold ret; repeat f_equal; rewrite <- ?app_assoc; try done.
  all: destruct app; simpl in *; by subst.
Qed.

(** X6.  What a [configure] that gets past its checks does to the
    sandboxes: the run file, macro or script, is appended to the input
    sandbox as a [File]; [return_card.js] is appended to the output
    sandbox, after [rat.log] in macro mode; the backend and the file
    system are not touched. *)
Theorem configure_sandboxes (config : string → result pyval) (w : World) :
  let app := application (job w) in
  configurable config app →
  let w' := snd (configure config w) in
  inputsandbox (job w') = inputsandbox (job w) ++ [File (run_path app)]
  ∧ outputsandbox (job w') =
    outputsandbox (job w)
    ++ (if bool_decide (ratMacro app ≠ "") then ["rat.log"] else [])
    ++ ["return_card.js"]
  ∧ backend (job w') = backend (job w)
  ∧ filesystem w' = filesystem w.
Proof.
  intros app Hok w'. unfold w'. rewrite (configure_ok_eq config w Hok).
  simpl. split_and!; try done. unfold configure_outputs. fold app.
  by destruct (bool_decide (ratMacro app ≠ "")).
Qed.

Lemma configurable_string_fields :
  configurable unset_config (application (job string_fields_world)).
Proof.
  split; simpl; [split; [discriminate | intros H; by destruct H] | discriminate].
Qed.

Lemma configure_sandboxes_witness :
  let w' := snd (configure unset_config string_fields_world) in
  inputsandbox (job w') = [] ++ [File "/scripts/s1.py"]
  ∧ outputsandbox (job w') = [] ++ [] ++ ["return_card.js"]
  ∧ backend (job w') = mkBackend PyNone PyNone
  ∧ filesystem w' = ∅.
Proof.
  exact (configure_sandboxes unset_config string_fields_world
           configurable_string_fields).
Defined.

Lemma as_list_idemp (x : files) : as_list (as_list x) = as_list x.
Proof. by destruct x. Qed.

(** X7.  Running [configure] a second time on the same job succeeds
    when the first run did and leaves the application as the first run
    left it, but appends the same entries to both sandboxes once more:
    the file fields are forced into lists once, the sandbox entries are
    duplicated. *)
Theorem configure_twice (config : string → result pyval) (w : World) :
  let app := application (job w) in
  configurable config app →
  ∃ w'',
    mbind (configure config) (λ _, configure config) w = (inr (PyNone, PyNone), w'')
    ∧ application (job w'') = application (job (snd (configure config w)))
    ∧ inputsandbox (job w'') =
      inputsandbox (job w) ++ [File (run_path app); File (run_path app)]
    ∧ outputsandbox (job w'') =
      outputsandbox (job w) ++ configure_outputs app ++ configure_outputs app.
Proof.
  intros app Hok. unfold mbind.
  rewrite (configure_ok_eq config w Hok).
  assert (configurable config (application (job (configured_world w)))) as Hok'.
  { destruct Hok as [Hone Hdb]. split; simpl; by destruct (application (job w)). }
  rewrite (configure_ok_eq config _ Hok').
  eexists. split; [reflexivity|].
  unfold configured_world. simpl. fold app.
  destruct app; simpl. rewrite !as_list_idemp, <- !app_assoc. done.
Qed.

Lemma configure_twice_witness :
  ∃ w'',
    mbind (configure unset_config) (λ _, configure unset_config) string_fields_world
    = (inr (PyNone, PyNone), w'')
    ∧ application (job w'') =
      application (job (snd (configure unset_config string_fields_world)))
    ∧ inputsandbox (job w'') = [] ++ [File "/scripts/s1.py"; File "/scripts/s1.py"]
    ∧ outputsandbox (job w'') = [] ++ ["return_card.js"] ++ ["return_card.js"].
Proof.
  exact (configure_twice unset_config string_fields_world configurable_string_fields).
Defined.

(** ** Paths and file lists *)

Lemma str_split_nonempty (sep : ascii) (s : string) : str_split sep s ≠ [].
Proof.
  induction s as [|c s IH]; simpl; [done|].
  case_decide; [done|]. by destruct (str_split sep s).
Qed.

(** X8.  Splitting a path at its slashes loses nothing and leaves no
    slash behind: joining the components with slashes gives the path
    back, and no component contains a slash. *)
Theorem str_split_join (s : string) :
  String.concat "/" (str_split slash s) = s
  ∧ Forall (λ component, slash ∉ list_ascii_of_string component) (str_split slash s).
Proof.
  induction s as [|c s [IHjoin IHfree]]; simpl.
  - split; [done|]. constructor; [apply not_elem_of_nil | constructor].
  - pose proof (str_split_nonempty slash s) as Hne.
    case_decide as Hc.
    + subst c. split.
      * destruct (str_split slash s) as [|w ws] eqn:Hs; [done|].
        change (String.concat "/" ("" :: w :: ws))
          with ("" +:+ "/" +:+ String.concat "/" (w :: ws)).
        by rewrite IHjoin.
      * constructor; [apply not_elem_of_nil | done].
    + destruct (str_split slash s) as [|w ws] eqn:Hs; [done|]. split.
      * destruct ws as [|w' ws]; simpl in *; [by rewrite IHjoin|].
        rewrite string_app_cons. by rewrite IHjoin.
      * inversion IHfree as [|? ? Hw Hws]; subst. constructor; [|done].
        simpl. apply not_elem_of_cons. split; [congruence | done].
Qed.

Lemma str_split_slash_free (name : string) :
  slash ∉ list_ascii_of_string name → str_split slash name = [name].
Proof.
  induction name as [|c name IH]; simpl; [done|].
  intros [Hc Hname]%not_elem_of_cons. rewrite (IH Hname).
  case_decide; [congruence | done].
Qed.

Lemma str_split_app (dir rest : string) :
  str_split slash (dir +:+ "/" +:+ rest) = str_split slash dir ++ str_split slash rest.
Proof.
  induction dir as [|c dir IH]; [done|].
  rewrite string_app_cons. simpl. rewrite IH.
  case_decide; [done|].
  pose proof (str_split_nonempty slash dir).
  by destruct (str_split slash dir).
Qed.

(** X9.  The run file of a path is what follows its last slash: for a
    name without a slash, [dir/name] and [name] alone both give [name],
    and [os.path.basename] gives the same. *)
Theorem last_component_of (dir name : string) :
  slash ∉ list_ascii_of_string name →
  last_component (dir +:+ "/" +:+ name) = inr name
  ∧ last_component name = inr name
  ∧ os_path_basename (dir +:+ "/" +:+ name) = name.
Proof.
  intros Hname. unfold last_component, os_path_basename, getitem.
  rewrite str_split_app, !(str_split_slash_free name Hname). split_and!.
  - rewrite length_app, Nat.add_sub. simpl.
    by rewrite lookup_app_r, Nat.sub_diag by lia.
  - done.
  - apply List.last_last.
Qed.

Lemma last_component_of_witness :
  last_component ("/data/macros" +:+ "/" +:+ "run.mac") = inr "run.mac"
  ∧ last_component "run.mac" = inr "run.mac"
  ∧ os_path_basename ("/data/macros" +:+ "/" +:+ "run.mac") = "run.mac".
Proof.
  apply (last_component_of "/data/macros" "run.mac").
  apply (bool_decide_unpack (slash ∉ list_ascii_of_string "run.mac")).
  vm_compute. exact I.
Defined.

Lemma drop_last_length (s : string) :
  String.length (drop_last s) = String.length s - 1.
Proof.
  induction s as [|c s IH]; [done|].
  destruct s as [|c' s]; [done|]. simpl in *. rewrite IH. lia.
Qed.

Lemma add_entries_chars_length (acc s : string) :
  String.length (add_entries acc (enumerate (FStr s)))
  = String.length acc + 2 * String.length s.
Proof.
  revert acc. induction s as [|c s IH]; intros acc; simpl; [lia|].
  unfold enumerate in IH. rewrite IH, !string_length_app. simpl. lia.
Qed.

(** X10.  A file field that is still a lone string when a handler
    serializes it is written out character by character, each character
    an entry of its own; for a name of two or more characters that is
    not the list of the one name, [[name]], which is what the field
    gives once [configure] has forced it into a list. *)
Theorem file_list_lone_string (s : string) :
  2 ≤ String.length s →
  file_list (FStr s)
  = "[" +:+ String.concat "," ((λ c, String c "") <$> list_ascii_of_string s) +:+ "]"
  ∧ file_list (as_list (FStr s)) = "[" +:+ s +:+ "]"
  ∧ file_list (FStr s) ≠ file_list (as_list (FStr s)).
Proof.
  intros Hlen.
  assert (file_list (as_list (FStr s)) = "[" +:+ s +:+ "]") as Hlist.
  { simpl. by rewrite file_list_cons. }
  split_and!; [| done |].
  - destruct s as [|c s]; [simpl in Hlen; lia|].
    change (file_list (FStr (String c s)))
      with (file_list (FList (String c "" :: enumerate (FStr s)))).
    by rewrite file_list_cons.
  - rewrite Hlist. intros Heq. apply (f_equal String.length) in Heq.
    revert Heq. unfold file_list.
    pose proof (add_entries_chars_length "[" s) as Hadd.
    change (String.length "[") with 1 in Hadd.
    destruct (String.length (add_entries "[" (enumerate (FStr s))) =? 1) eqn:H1.
    { apply Nat.eqb_eq in H1. lia. }
    simpl negb. cbv iota.
    rewrite !string_length_app, drop_last_length, Hadd.
    change (String.length "]") with 1. change (String.length "[") with 1. lia.
Qed.

Lemma file_list_lone_string_witness :
  file_list (FStr "f1.root")
  = "[" +:+ String.concat "," ((λ c, String c "") <$> list_ascii_of_string "f1.root")
    +:+ "]"
  ∧ file_list (as_list (FStr "f1.root")) = "[" +:+ "f1.root" +:+ "]"
  ∧ file_list (FStr "f1.root") ≠ file_list (as_list (FStr "f1.root")).
Proof. apply (file_list_lone_string "f1.root"). simpl. lia. Defined.

(** ** RTHandler.prepare with an environment *)

Lemma prepare_wrapped_eq (app_config : string → result pyval) (dir : string)
    (app : RATProd) (swDir file foutList finList envFile : string) (w : World)
    (user pswd name protocol url : pyval) :
  (useDB app = true → configured app_config user pswd name protocol url) →
  RTHandler.prepare_wrapped app_config dir app swDir
    (if bool_decide (ratMacro app ≠ "") then PyStr file else PyNone)
    (if bool_decide (ratMacro app ≠ "") then PyNone else PyStr file)
    foutList finList envFile w =
  (inr (StandardJobConfig (File (dir +:+ "/sillyPythonWrapper.py"))
          (inputsandbox (job w) ++ [SbStr (dir +:+ "/ratProdRunner.py")])
          (outputsandbox (job w))
          (misc_wrapper_args envFile
             ("-v " +:+ ratVersion app +:+ " " +:+
              "-s " +:+ swDir +:+ " " +:+
              "-d " +:+ outputDir app +:+ " " +:+
              "-o " +:+ foutList +:+ " " +:+
              "-x " +:+ inputDir app +:+ " " +:+
              "-i " +:+ finList +:+ " " +:+
              (if bool_decide (ratMacro app ≠ "") then "-m " else "-k -m ") +:+
              file +:+ " " +:+
              (if useDB app then db_string user pswd name protocol url else "") +:+
              (if discardOutput app then "--nostore " else "")))),
   mkWorld
     (set_inputsandbox
        (inputsandbox (job w) ++ [SbStr (dir +:+ "/ratProdRunner.py")]) (job w))
     (filesystem w)).
Proof.
  intros Hdb.
  unfold RTHandler.prepare_wrapped, misc_wrapper_args, mbind, db_string,
    inputsandbox_append, modify_job.
  destruct (String.eqb_spec (ratMacro app) "") as [Heq | Hne].
  - rewrite !bool_decide_eq_false_2 by (by intros []). simpl negb. cbv iota.
    destruct (useDB app).
    + destruct (Hdb eq_refl) as (-> & -> & -> & -> & ->). unfold lift, ret, gets.
      destruct (discardOutput app); simpl; flatten_strings; reflexivity.
    + unfold ret, gets.
      destruct (discardOutput app); simpl; flatten_strings; reflexivity.
  - rewrite !bool_decide_eq_true_2 by done. simpl negb. cbv iota.
    destruct (useDB app).
    + destruct (Hdb eq_refl) as (-> & -> & -> & -> & ->). unfold lift, ret, gets.
      destruct (discardOutput app); simpl; flatten_strings; reflexivity.
    + unfold ret, gets.
      destruct (discardOutput app); simpl; flatten_strings; reflexivity.
Qed.

Lemma prepare_env_eq (app_config : string → result pyval) (dir login : string)
    (can_write : string → bool) (w : World) (user pswd name protocol url : pyval) :
  let app := application (job w) in
  ratDirectory app ≠ "" →
  (useDB app = true → configured app_config user pswd name protocol url) →
  ∃ file,
    last_component (run_path app) = inr file
    ∧ (∀ path,
         environment app = EnvStr path →
         RTHandler.prepare app_config dir login can_write w =
         (inr (StandardJobConfig (File (dir +:+ "/sillyPythonWrapper.py"))
                 (inputsandbox (job w)
                  ++ [SbStr path; SbStr (dir +:+ "/ratProdRunner.py")])
                 (outputsandbox (job w))
                 (misc_wrapper_args (os_path_basename path)
                    (args_string user pswd name protocol url app
                       (ratDirectory app) file))),
          mkWorld
            (set_inputsandbox
               (inputsandbox (job w)
                ++ [SbStr path; SbStr (dir +:+ "/ratProdRunner.py")]) (job w))
            (filesystem w)))
    ∧ (∀ lines,
         environment app = EnvList lines →
         can_write (env_temp_path login) = true →
         RTHandler.prepare app_config dir login can_write w =
         (inr (StandardJobConfig (File (dir +:+ "/sillyPythonWrapper.py"))
                 (inputsandbox (job w)
                  ++ [SbStr (env_temp_path login);
                      SbStr (dir +:+ "/ratProdRunner.py")])
                 (outputsandbox (job w))
                 (misc_wrapper_args (env_temp_name login)
                    (args_string user pswd name protocol url app
                       (ratDirectory app) file))),
          mkWorld
            (set_inputsandbox
               (inputsandbox (job w)
                ++ [SbStr (env_temp_path login);
                    SbStr (dir +:+ "/ratProdRunner.py")]) (job w))
            (<[env_temp_path login := env_file_content lines]> (filesystem w)))).
Proof.
  intros app Hdir Hdb.
  destruct (run_file_spec app) as (file & Hfile & _ & Hrun).
  exists file. split; [done|].
  assert (∀ envFile w0,
            RTHandler.prepare_wrapped app_config dir app (ratDirectory app)
              (if bool_decide (ratMacro app ≠ "") then PyStr file else PyNone)
              (if bool_decide (ratMacro app ≠ "") then PyNone else PyStr file)
              (file_list (outputFiles app)) (file_list (inputFiles app)) envFile w0 =
            (inr (StandardJobConfig (File (dir +:+ "/sillyPythonWrapper.py"))
                    (inputsandbox (job w0) ++ [SbStr (dir +:+ "/ratProdRunner.py")])
                    (outputsandbox (job w0))
                    (misc_wrapper_args envFile
                       (args_string user pswd name protocol url app
                          (ratDirectory app) file))),
             mkWorld
               (set_inputsandbox
                  (inputsandbox (job w0) ++ [SbStr (dir +:+ "/ratProdRunner.py")])
                  (job w0))
               (filesystem w0))) as Hwrapped.
  { intros envFile w0.
    rewrite (prepare_wrapped_eq app_config dir app _ file _ _ envFile w0
               user pswd name protocol url Hdb).
    unfold args_string, common_string. by flatten_strings. }
  assert (RTHandler.prepare app_config dir login can_write w
            = match environment app with
              | EnvNone => RTHandler.prepare app_config dir login can_write w
              | EnvStr path =>
                mbind (inputsandbox_append (SbStr path))
                  (λ _, RTHandler.prepare_wrapped app_config dir app
                          (ratDirectory app)
                          (if bool_decide (ratMacro app ≠ "") then PyStr file else PyNone)
                          (if bool_decide (ratMacro app ≠ "") then PyNone else PyStr file)
                          (file_list (outputFiles app)) (file_list (inputFiles app))
                          (os_path_basename path)) w
              | EnvList lines =>
                mbind (write_file (can_write ("/tmp/" +:+ ("tempRATProdEnv_" +:+ login)))
                         ("/tmp/" +:+ ("tempRATProdEnv_" +:+ login))
                         (String.concat ""
                            ((λ line, line +:+ " " +:+ newline) <$> lines)))
                  (λ _, mbind
                          (inputsandbox_append
                             (SbStr ("/tmp/" +:+ ("tempRATProdEnv_" +:+ login))))
                          (λ _, RTHandler.prepare_wrapped app_config dir app
                                  (ratDirectory app)
                                  (if bool_decide (ratMacro app ≠ "")
                                   then PyStr file else PyNone)
                                  (if bool_decide (ratMacro app ≠ "")
                                   then PyNone else PyStr file)
                                  (file_list (outputFiles app))
                                  (file_list (inputFiles app))
                                  ("tempRATProdEnv_" +:+ login))) w
              end) as Hprepare.
  { unfold RTHandler.prepare at 1. unfold mbind at 1 2 3, get_app, gets, lift.
    fold app. destruct (String.eqb_spec (ratDirectory app) "") as [|_]; [done|].
    unfold ret at 1. rewrite Hrun.
    destruct (environment app) eqn:Henv.
    - unfold RTHandler.prepare, mbind, get_app, gets, lift. fold app.
      destruct (String.eqb_spec (ratDirectory app) "") as [|_]; [done|].
      unfold ret at 1. rewrite Hrun, Henv.
      by destruct (bool_decide (ratMacro app ≠ "")).
    - by destruct (bool_decide (ratMacro app ≠ "")).
    - by destruct (bool_decide (ratMacro app ≠ "")). }
  split.
  - intros path Henv. rewrite Hprepare, Henv.
    unfold mbind at 1, inputsandbox_append, modify_job. rewrite Hwrapped. simpl.
    by rewrite <- !app_assoc.
  - intros lines Henv Hwrite. rewrite Hprepare, Henv.
    unfold env_temp_path, env_temp_name in *.
    unfold mbind at 1, write_file. rewrite Hwrite.
    unfold mbind at 1, inputsandbox_append, modify_job. rewrite Hwrapped. simpl.
    by rewrite <- !app_assoc.
Qed.

(** X11.  With the environment given as a file, the handler of the local
    and batch backends ships that file and the runner in the input
    sandbox, in this order, and calls the wrapper with launcher kind
    [misc], the base name of the file after [-f] and the whole argument
    string after [-a]; the file system is not written. *)
Theorem prepare_with_environment_file (app_config : string → result pyval)
    (dir login : string) (can_write : string → bool) (w : World) (path : string)
    (user pswd name protocol url : pyval) :
  let app := application (job w) in
  environment app = EnvStr path →
  ratDirectory app ≠ "" →
  (useDB app = true → configured app_config user pswd name protocol url) →
  ∃ file,
    is_last_component (run_path app) file
    ∧ RTHandler.prepare app_config dir login can_write w =
      (inr (StandardJobConfig (File (dir +:+ "/sillyPythonWrapper.py"))
              (inputsandbox (job w)
               ++ [SbStr path; SbStr (dir +:+ "/ratProdRunner.py")])
              (outputsandbox (job w))
              [PyStr "-s"; PyStr "ratProdRunner.py"; PyStr "-l"; PyStr "misc";
               PyStr "-f"; PyStr (os_path_basename path); PyStr "-a";
               PyStr (common_string app (ratDirectory app) file +:+
                      (if useDB app then db_string user pswd name protocol url
                       else "") +:+
                      (if discardOutput app then "--nostore " else ""))]),
       mkWorld
         (set_inputsandbox
            (inputsandbox (job w)
             ++ [SbStr path; SbStr (dir +:+ "/ratProdRunner.py")]) (job w))
         (filesystem w)).
Proof.
  intros app Henv Hdir Hdb.
  destruct (prepare_env_eq app_config dir login can_write w
              user pswd name protocol url Hdir Hdb) as (file & Hfile & Hstr & _).
  destruct (last_component_spec (run_path app)) as (file' & Hfile' & Hlast).
  unfold app in *.
  exists file. split; [by assert (file = file') as -> by congruence|].
  by rewrite (Hstr path Henv).
Qed.

Lemma prepare_with_environment_file_witness :
  ∃ file,
    is_last_component "/scripts/s1.py" file
    ∧ RTHandler.prepare unset_config "/opt/ganga" "snoprod" (λ _, true) env_file_world =
      (inr (StandardJobConfig (File "/opt/ganga/sillyPythonWrapper.py")
              ([] ++ [SbStr "/home/snoprod/env/env_rat-5.sh";
                      SbStr "/opt/ganga/ratProdRunner.py"])
              []
              [PyStr "-s"; PyStr "ratProdRunner.py"; PyStr "-l"; PyStr "misc";
               PyStr "-f"; PyStr "env_rat-5.sh"; PyStr "-a";
               PyStr (common_string env_file_app "/sw/snoing" file +:+ "" +:+ "")]),
       mkWorld
         (set_inputsandbox
            ([] ++ [SbStr "/home/snoprod/env/env_rat-5.sh";
                    SbStr "/opt/ganga/ratProdRunner.py"]) (job env_file_world))
         ∅).
Proof.
  exact (prepare_with_environment_file unset_config "/opt/ganga" "snoprod"
           (λ _, true) env_file_world "/home/snoprod/env/env_rat-5.sh"
           PyNone PyNone PyNone PyNone PyNone eq_refl ltac:(discriminate)
           ltac:(discriminate)).
Defined.

(** X12.  With the environment given as a list of commands, the handler
    writes them, each followed by a space and a newline, to
    [/tmp/tempRATProdEnv_<login>], ships that file and then the runner
    in the input sandbox, and names the file without its directory
    after [-f]. *)
Theorem prepare_with_environment_list (app_config : string → result pyval)
    (dir login : string) (can_write : string → bool) (w : World)
    (lines : list string) (user pswd name protocol url : pyval) :
  let app := application (job w) in
  environment app = EnvList lines →
  ratDirectory app ≠ "" →
  can_write ("/tmp/tempRATProdEnv_" +:+ login) = true →
  (useDB app = true → configured app_config user pswd name protocol url) →
  ∃ file w',
    is_last_component (run_path app) file
    ∧ RTHandler.prepare app_config dir login can_write w =
      (inr (StandardJobConfig (File (dir +:+ "/sillyPythonWrapper.py"))
              (inputsandbox (job w)
               ++ [SbStr ("/tmp/tempRATProdEnv_" +:+ login);
                   SbStr (dir +:+ "/ratProdRunner.py")])
              (outputsandbox (job w))
              [PyStr "-s"; PyStr "ratProdRunner.py"; PyStr "-l"; PyStr "misc";
               PyStr "-f"; PyStr ("tempRATProdEnv_" +:+ login); PyStr "-a";
               PyStr (common_string app (ratDirectory app) file +:+
                      (if useDB app then db_string user pswd name protocol url
                       else "") +:+
                      (if discardOutput app then "--nostore " else ""))]), w')
    ∧ filesystem w' =
      <[ "/tmp/tempRATProdEnv_" +:+ login :=
         String.concat "" ((λ line, line +:+ " " +:+ newline) <$> lines) ]>
        (filesystem w)
    ∧ job w' =
      set_inputsandbox
        (inputsandbox (job w)
         ++ [SbStr ("/tmp/tempRATProdEnv_" +:+ login);
             SbStr (dir +:+ "/ratProdRunner.py")]) (job w).
Proof.
  intros app Henv Hdir Hwrite Hdb.
  destruct (prepare_env_eq app_config dir login can_write w
              user pswd name protocol url Hdir Hdb) as (file & Hfile & _ & Hlist).
  destruct (last_component_spec (run_path app)) as (file' & Hfile' & Hlast).
  unfold app in *.
  exists file. eexists. split; [by assert (file = file') as -> by congruence|].
  rewrite (Hlist lines Henv Hwrite).
  split_and!; reflexivity.
Qed.

Lemma prepare_with_environment_list_witness :
  ∃ file w',
    is_last_component "/scripts/s1.py" file
    ∧ RTHandler.prepare unset_config "/opt/ganga" "snoprod" (λ _, true) env_list_world =
      (inr (StandardJobConfig (File "/opt/ganga/sillyPythonWrapper.py")
              ([] ++ [SbStr "/tmp/tempRATProdEnv_snoprod";
                      SbStr "/opt/ganga/ratProdRunner.py"])
              []
              [PyStr "-s"; PyStr "ratProdRunner.py"; PyStr "-l"; PyStr "misc";
               PyStr "-f"; PyStr "tempRATProdEnv_snoprod"; PyStr "-a";
               PyStr (common_string env_list_app "/sw/snoing" file +:+ "" +:+ "")]), w')
    ∧ filesystem w' =
      <[ "/tmp/tempRATProdEnv_snoprod" :=
         String.concat ""
           ((λ line, line +:+ " " +:+ newline)
              <$> ["source /sw/env.sh"; "export RATDB=1"]) ]> ∅
    ∧ job w' =
      set_inputsandbox
        ([] ++ [SbStr "/tmp/tempRATProdEnv_snoprod";
                SbStr "/opt/ganga/ratProdRunner.py"]) (job env_list_world).
Proof.
  exact (prepare_with_environment_list unset_config "/opt/ganga" "snoprod"
           (λ _, true) env_list_world ["source /sw/env.sh"; "export RATDB=1"]
           PyNone PyNone PyNone PyNone PyNone eq_refl ltac:(discriminate)
           eq_refl ltac:(discriminate)).
Defined.

(** X13.  The file an environment list is written to is named after
    the user, not after the job: when the handler prepares a second job
    of the same user on the same machine, the file the first job ships
    in its input sandbox is overwritten with the environment of the
    second. *)
Theorem environment_file_overwritten (app_config : string → result pyval)
    (dir login : string) (can_write : string → bool) (w1 : World) (job2 : Job)
    (lines1 lines2 : list string) (user pswd name protocol url : pyval) :
  environment (application (job w1)) = EnvList lines1 →
  environment (application job2) = EnvList lines2 →
  ratDirectory (application (job w1)) ≠ "" →
  ratDirectory (application job2) ≠ "" →
  can_write ("/tmp/tempRATProdEnv_" +:+ login) = true →
  configured app_config user pswd name protocol url →
  let w1' := snd (RTHandler.prepare app_config dir login can_write w1) in
  let w2' := snd (RTHandler.prepare app_config dir login can_write
                    (mkWorld job2 (filesystem w1'))) in
  filesystem w1' !! ("/tmp/tempRATProdEnv_" +:+ login)
  = Some (String.concat "" ((λ line, line +:+ " " +:+ newline) <$> lines1))
  ∧ filesystem w2' !! ("/tmp/tempRATProdEnv_" +:+ login)
    = Some (String.concat "" ((λ line, line +:+ " " +:+ newline) <$> lines2))
  ∧ SbStr ("/tmp/tempRATProdEnv_" +:+ login) ∈ inputsandbox (job w1')
  ∧ SbStr ("/tmp/tempRATProdEnv_" +:+ login) ∈ inputsandbox (job w2').
Proof.
  intros Henv1 Henv2 Hdir1 Hdir2 Hwrite Hdb w1' w2'.
  destruct (prepare_env_eq app_config dir login can_write w1
              user pswd name protocol url Hdir1 (λ _, Hdb)) as (f1 & _ & _ & Hl1).
  specialize (Hl1 lines1 Henv1 Hwrite).
  assert (filesystem w1' =
          <[env_temp_path login := env_file_content lines1]> (filesystem w1)
          ∧ SbStr (env_temp_path login) ∈ inputsandbox (job w1')) as [Hfs1 Hsb1].
  { unfold w1'. rewrite Hl1. simpl. split; [done|].
    apply elem_of_app. right. apply elem_of_cons. by left. }
  destruct (prepare_env_eq app_config dir login can_write
              (mkWorld job2 (filesystem w1'))
              user pswd name protocol url Hdir2 (λ _, Hdb)) as (f2 & _ & _ & Hl2).
  specialize (Hl2 lines2 Henv2 Hwrite).
  assert (filesystem w2' =
          <[env_temp_path login := env_file_content lines2]> (filesystem w1')
          ∧ SbStr (env_temp_path login) ∈ inputsandbox (job w2')) as [Hfs2 Hsb2].
  { unfold w2'. rewrite Hl2. simpl. split; [done|].
    apply elem_of_app. right. apply elem_of_cons. by left. }
  change ("/tmp/tempRATProdEnv_" +:+ login) with (env_temp_path login).
  rewrite Hfs2, Hfs1.
  split_and!; [apply lookup_insert_eq | apply lookup_insert_eq | done | done].
Qed.

Lemma environment_file_overwritten_witness :
  let w1' := snd (RTHandler.prepare unset_config "/opt/ganga" "snoprod" (λ _, true)
                    env_list_world) in
  let w2' := snd (RTHandler.prepare unset_config "/opt/ganga" "snoprod" (λ _, true)
                    (mkWorld other_env_job (filesystem w1'))) in
  filesystem w1' !! ("/tmp/tempRATProdEnv_" +:+ "snoprod")
  = Some (String.concat "" ((λ line, line +:+ " " +:+ newline)
                              <$> ["source /sw/env.sh"; "export RATDB=1"]))
  ∧ filesystem w2' !! ("/tmp/tempRATProdEnv_" +:+ "snoprod")
    = Some (String.concat "" ((λ line, line +:+ " " +:+ newline)
                                <$> ["source /sw/other.sh"]))
  ∧ SbStr ("/tmp/tempRATProdEnv_" +:+ "snoprod") ∈ inputsandbox (job w1')
  ∧ SbStr ("/tmp/tempRATProdEnv_" +:+ "snoprod") ∈ inputsandbox (job w2').
Proof.
  exact (environment_file_overwritten unset_config "/opt/ganga" "snoprod"
           (λ _, true) env_list_world other_env_job
           ["source /sw/env.sh"; "export RATDB=1"] ["source /sw/other.sh"]
           PyNone PyNone PyNone PyNone PyNone eq_refl eq_refl
           ltac:(discriminate) ltac:(discriminate) eq_refl unset_config_configured).
Defined.

(** ** List form and string form of the arguments *)

Lemma concat_empty_cons (x : string) (l : list string) :
  String.concat "" (x :: l) = x +:+ String.concat "" l.
Proof. destruct l; simpl; [by rewrite string_app_nil_r | done]. Qed.

Lemma render_cons (token : pyval) (args : list pyval) :
  render (token :: args) = fmt_s token +:+ " " +:+ render args.
Proof.
  unfold render. rewrite fmap_cons, concat_empty_cons.
  by rewrite string_app_assoc.
Qed.

Lemma render_app (args args' : list pyval) :
  render (args ++ args') = render args +:+ render args'.
Proof.
  induction args as [|token args IH]; [done|].
  simpl app. by rewrite !render_cons, IH, !string_app_assoc.
Qed.

(** X14.  The two forms of the arguments agree: for an application with
    an environment file, the argument string the wrapper gets after
    [-a] is the argument list the same application would get without
    an environment, written out with a space after every token. *)
Theorem wrapped_arguments_render_plain (app_config : string → result pyval)
    (dir login : string) (can_write : string → bool) (w : World) (path : string)
    (user pswd name protocol url : pyval) :
  let app := application (job w) in
  environment app = EnvStr path →
  ratDirectory app ≠ "" →
  (useDB app = true → configured app_config user pswd name protocol url) →
  ∃ args,
    fst (RTHandler.prepare app_config dir login can_write (with_environment EnvNone w))
    = inr (StandardJobConfig (File (dir +:+ "/ratProdRunner.py"))
             (inputsandbox (job w)) (outputsandbox (job w)) args)
    ∧ fst (RTHandler.prepare app_config dir login can_write w)
      = inr (StandardJobConfig (File (dir +:+ "/sillyPythonWrapper.py"))
               (inputsandbox (job w)
                ++ [SbStr path; SbStr (dir +:+ "/ratProdRunner.py")])
               (outputsandbox (job w))
               [PyStr "-s"; PyStr "ratProdRunner.py"; PyStr "-l"; PyStr "misc";
                PyStr "-f"; PyStr (os_path_basename path); PyStr "-a";
                PyStr (render args)]).
Proof.
  intros app Henv Hdir Hdb.
  destruct (prepare_env_eq app_config dir login can_write w
              user pswd name protocol url Hdir Hdb) as (file & Hfile & Hstr & _).
  rewrite (Hstr path Henv).
  destruct (prepare_plain_eq app_config dir login can_write
              (with_environment EnvNone w) user pswd name protocol url
              eq_refl Hdir Hdb) as (file' & Hfile' & _ & ->).
  unfold app in *.
  change (run_path _) with (run_path (application (job w))) in Hfile'.
  assert (file' = file) as -> by congruence.
  eexists. split; [reflexivity|]. simpl. unfold misc_wrapper_args.
  do 10 f_equal. fold app.
  rewrite !render_cons, !render_app.
  unfold args_string, common_string, db_string, db_args.
  destruct (bool_decide (ratMacro app ≠ "")), (useDB app), (discardOutput app);
    rewrite ?render_cons; simpl fmt_s; flatten_strings; reflexivity.
Qed.

Lemma wrapped_arguments_render_plain_witness :
  ∃ args,
    fst (RTHandler.prepare unset_config "/opt/ganga" "snoprod" (λ _, true)
           (with_environment EnvNone env_file_world))
    = inr (StandardJobConfig (File "/opt/ganga/ratProdRunner.py") [] [] args)
    ∧ fst (RTHandler.prepare unset_config "/opt/ganga" "snoprod" (λ _, true)
             env_file_world)
      = inr (StandardJobConfig (File "/opt/ganga/sillyPythonWrapper.py")
               ([] ++ [SbStr "/home/snoprod/env/env_rat-5.sh";
                       SbStr "/opt/ganga/ratProdRunner.py"])
               []
               [PyStr "-s"; PyStr "ratProdRunner.py"; PyStr "-l"; PyStr "misc";
                PyStr "-f"; PyStr "env_rat-5.sh"; PyStr "-a";
                PyStr (render args)]).
Proof.
  exact (wrapped_arguments_render_plain unset_config "/opt/ganga" "snoprod"
           (λ _, true) env_file_world "/home/snoprod/env/env_rat-5.sh"
           PyNone PyNone PyNone PyNone PyNone eq_refl ltac:(discriminate)
           ltac:(discriminate)).
Defined.

(** ** The handlers and [app.config] *)

(** X15.  With [useDB] unset no handler reads [app.config]: whatever it
    holds, and whether or not it can be read at all, [prepare] returns
    the same and leaves the same world. *)
Theorem prepare_ignores_config (w : World)
    (app_config app_config' : string → result pyval) (dir login : string)
    (can_write : string → bool) (environ : gmap string string)
    (os_path_exists : string → bool) :
  useDB (application (job w)) = false →
  RTHandler.prepare app_config dir login can_write w =
  RTHandler.prepare app_config' dir login can_write w
  ∧ WGRTHandler.prepare app_config dir environ os_path_exists w =
    WGRTHandler.prepare app_config' dir environ os_path_exists w
  ∧ LCGRTHandler.prepare app_config dir w = LCGRTHandler.prepare app_config' dir w.
Proof.
  intros Hdb. split_and!.
  - unfold RTHandler.prepare, RTHandler.prepare_plain, RTHandler.prepare_wrapped,
      mbind, get_app, gets.
    by rewrite !Hdb.
  - unfold WGRTHandler.prepare, mbind, get_app, gets. by rewrite !Hdb.
  - unfold LCGRTHandler.prepare, mbind, get_app, gets. by rewrite !Hdb.
Qed.

Lemma prepare_ignores_config_witness :
  RTHandler.prepare unset_config "/opt/ganga" "snoprod" (λ _, true) env_file_world =
  RTHandler.prepare partial_config "/opt/ganga" "snoprod" (λ _, true) env_file_world
  ∧ WGRTHandler.prepare unset_config "/opt/ganga" ∅ (λ _, true) env_file_world =
    WGRTHandler.prepare partial_config "/opt/ganga" ∅ (λ _, true) env_file_world
  ∧ LCGRTHandler.prepare unset_config "/opt/ganga" env_file_world =
    LCGRTHandler.prepare partial_config "/opt/ganga" env_file_world.
Proof.
  exact (prepare_ignores_config env_file_world unset_config partial_config
           "/opt/ganga" "snoprod" (λ _, true) ∅ (λ _, true) eq_refl).
Defined.

(** X16.  With [useDB] set the handler of the local and batch backends
    looks the five database keys up in their order, user first; the
    first key that cannot be read decides: its exception is what
    [prepare] raises, and the job is left as it was. *)
Theorem prepare_config_failure (app_config : string → result pyval)
    (dir login : string) (can_write : string → bool) (w : World)
    (before after : list string) (key : string) (e : exn) :
  let app := application (job w) in
  environment app = EnvNone →
  ratDirectory app ≠ "" →
  useDB app = true →
  db_keys = before ++ key :: after →
  (∀ k, k ∈ before → ∃ v, app_config k = inr v) →
  app_config key = inl e →
  RTHandler.prepare app_config dir login can_write w = (inl e, w).
Proof.
  intros app Henv Hdir Hdb Hkeys Hbefore Hkey.
  destruct (run_file_spec app) as (file & _ & _ & Hrun).
  unfold RTHandler.prepare, mbind, get_app, gets, lift. fold app.
  destruct (String.eqb_spec (ratDirectory app) "") as [|_]; [done|].
  unfold ret at 1. rewrite Hrun, Henv.
  unfold RTHandler.prepare_plain, mbind, lift. rewrite Hdb.
  unfold db_keys in Hkeys.
  assert (∀ (A : Type) (x y : A) (l : list A), x ∈ x :: l) as Hhere
    by (intros; apply elem_of_cons; by left).
  assert (∀ (A : Type) (x y : A) (l : list A), x ∈ l → x ∈ y :: l) as Hthere
    by (intros; apply elem_of_cons; by right).
  destruct (bool_decide (ratMacro app ≠ "")).
  all: destruct before as [|k1 before]; simplify_eq/=; [by rewrite Hkey|].
  all: destruct (Hbefore "rat_db_user") as [v1 ->]; [auto|].
  all: destruct before as [|k2 before]; simplify_eq/=; [by rewrite Hkey|].
  all: destruct (Hbefore "rat_db_pswd") as [v2 ->]; [auto|].
  all: destruct before as [|k3 before]; simplify_eq/=; [by rewrite Hkey|].
  all: destruct (Hbefore "rat_db_name") as [v3 ->]; [auto 6|].
  all: destruct before as [|k4 before]; simplify_eq/=; [by rewrite Hkey|].
  all: destruct (Hbefore "rat_db_protocol") as [v4 ->]; [auto 7|].
  all: destruct before as [|k5 before]; simplify_eq/=; [by rewrite Hkey|].
  all: by destruct before.
Qed.

Lemma prepare_config_failure_witness :
  RTHandler.prepare partial_config "/opt/ganga" "snoprod" (λ _, true) macro_world =
  (inl (ConfigError "rat_db_name"), macro_world).
Proof.
  apply (prepare_config_failure partial_config "/opt/ganga" "snoprod" (λ _, true)
           macro_world ["rat_db_user"; "rat_db_pswd"]
           ["rat_db_protocol"; "rat_db_url"] "rat_db_name"
           (ConfigError "rat_db_name") eq_refl ltac:(discriminate) eq_refl eq_refl);
    [|reflexivity].
  intros k Hk. apply elem_of_cons in Hk as [-> | Hk]; [by eexists|].
  apply elem_of_cons in Hk as [-> | Hk]; [by eexists|].
  by apply not_elem_of_nil in Hk.
Defined.

(** ** WGRTHandler.prepare: the proxy *)

(** X17.  The WestGrid handler wants a proxy that exists.  With no proxy
    on the backend and no [X509_USER_PROXY] in the environment it raises;
    with a proxy, the one of the backend before the one of the
    environment, whose path does not exist it raises and names the path
    in the log.  Either way the job is left as it was. *)
Theorem wg_proxy_errors (app_config : string → result pyval) (dir : string)
    (environ : gmap string string) (os_path_exists : string → bool) (w : World) :
  ratDirectory (application (job w)) ≠ "" →
  (voproxy (backend (job w)) = PyNone →
   environ !! "X509_USER_PROXY" = None →
   WGRTHandler.prepare app_config dir environ os_path_exists w =
   (inl (Exception "Cannot run without voproxy either in environment (X509_USER_PROXY) or specified for WG backend"),
    w))
  ∧ (∀ proxy,
       (voproxy (backend (job w)) = PyStr proxy
        ∨ (voproxy (backend (job w)) = PyNone
           ∧ environ !! "X509_USER_PROXY" = Some proxy)) →
       os_path_exists proxy = false →
       WGRTHandler.prepare app_config dir environ os_path_exists w =
       (inl (Exception
               ("Valid WestGrid backend voproxy location MUST be specified: "
                +:+ proxy)), w)).
Proof.
  intros Hdir.
  unfold WGRTHandler.prepare, mbind, get_app, gets, raise_if.
  destruct (String.eqb_spec (ratDirectory (application (job w))) "") as [|_];
    [done|].
  unfold ret at 1. split.
  - by intros -> ->.
  - intros proxy [-> | [-> ->]] Hmissing; unfold ret; by rewrite Hmissing.
Qed.

Lemma wg_proxy_errors_witness :
  WGRTHandler.prepare unset_config "/opt/ganga" ∅ (λ _, false) no_proxy_world =
  (inl (Exception "Cannot run without voproxy either in environment (X509_USER_PROXY) or specified for WG backend"),
   no_proxy_world).
Proof.
  exact (proj1 (wg_proxy_errors unset_config "/opt/ganga" ∅ (λ _, false)
                  no_proxy_world ltac:(discriminate)) eq_refl eq_refl).
Defined.

Ltac atomic_steps :=
  repeat first
    [ apply atomic_nofail; solve [nofail_steps]
    | apply atomic_readonly; solve [readonly_steps]
    | apply atomic_bind; [solve [readonly_steps] | intros ?]
    | match goal with
      | |- atomic (let '(_, _) := ?x in _) => destruct x
      | |- atomic (if ?c then _ else _) => destruct c
      | |- atomic (match ?x with _ => _ end) => destruct x
      end
    | progress cbv zeta ].

(** X18.  The WestGrid handler does all or nothing: whatever makes it
    raise, the software directory, the proxy or an [app.config] that
    cannot be read, the job and its sandboxes are as they were. *)
Theorem wg_prepare_atomic (app_config : string → result pyval) (dir : string)
    (environ : gmap string string) (os_path_exists : string → bool)
    (w w' : World) (e : exn) :
  WGRTHandler.prepare app_config dir environ os_path_exists w = (inl e, w') →
  w' = w.
Proof.
  revert w e w'.
  change (atomic (WGRTHandler.prepare app_config dir environ os_path_exists)).
  unfold WGRTHandler.prepare. atomic_steps.
Qed.

Lemma wg_prepare_atomic_witness :
  WGRTHandler.prepare unset_config "/opt/ganga" ∅ (λ _, false) no_proxy_world =
  (inl (Exception "Cannot run without voproxy either in environment (X509_USER_PROXY) or specified for WG backend"),
   no_proxy_world)
  ∧ no_proxy_world = no_proxy_world.
Proof.
  split; [reflexivity|].
  exact (wg_prepare_atomic unset_config "/opt/ganga" ∅ (λ _, false)
           no_proxy_world no_proxy_world _ eq_refl).
Defined.

(** ** What the handlers leave alone *)

Lemma extends_refl (w : World) : extends w w.
Proof. by repeat split. Qed.

Lemma extends_trans (w1 w2 w3 : World) : extends w1 w2 → extends w2 w3 → extends w1 w3.
Proof.
  intros (Ha & Ho & Hb & Hi) (Ha' & Ho' & Hb' & Hi'). split_and!; try congruence.
  by etrans.
Qed.

Lemma steady_readonly {A} (m : M A) : readonly m → steady m.
Proof. intros Hm w. rewrite Hm. apply extends_refl. Qed.

Lemma steady_bind {A B} (m : M A) (k : A → M B) :
  steady m → (∀ x, steady (k x)) → steady (mbind m k).
Proof.
  intros Hm Hk w. unfold mbind. specialize (Hm w).
  destruct (m w) as [[e | x] w']; simpl in *; [done|].
  eapply extends_trans; [exact Hm | apply Hk].
Qed.

Lemma steady_inputsandbox_append (x : sbitem) : steady (inputsandbox_append x).
Proof. intros w. split_and!; try done. simpl. by apply prefix_app_r. Qed.

Lemma steady_write_file (writable : bool) (path content : string) :
  steady (write_file writable path content).
Proof. intros w. unfold write_file. destruct writable; by repeat split. Qed.

Ltac steady_steps :=
  repeat first
    [ apply steady_readonly; solve [readonly_steps]
    | apply steady_inputsandbox_append | apply steady_write_file
    | apply steady_bind; [|intros ?]
    | match goal with
      | |- steady (let '(_, _) := ?x in _) => destruct x
      | |- steady (if ?c then _ else _) => destruct c
      | |- steady (match ?x with _ => _ end) => destruct x
      | |- steady (RTHandler.prepare_plain _ _ _ _ _ _ _ _) =>
        unfold RTHandler.prepare_plain
      | |- steady (RTHandler.prepare_wrapped _ _ _ _ _ _ _ _ _) =>
        unfold RTHandler.prepare_wrapped
      end
    | progress cbv zeta ].

(** X19.  Whatever the outcome, the handlers of the local, batch and
    WestGrid backends never change the application, the output sandbox
    or the backend of the job, and never remove or reorder what is in
    its input sandbox: they only append to it. *)
Theorem prepare_steady (app_config : string → result pyval) (dir login : string)
    (can_write : string → bool) (environ : gmap string string)
    (os_path_exists : string → bool) (w : World) :
  extends w (snd (RTHandler.prepare app_config dir login can_write w))
  ∧ extends w (snd (WGRTHandler.prepare app_config dir environ os_path_exists w)).
Proof.
  split.
  - revert w. change (steady (RTHandler.prepare app_config dir login can_write)).
    unfold RTHandler.prepare. steady_steps.
  - revert w.
    change (steady (WGRTHandler.prepare app_config dir environ os_path_exists)).
    unfold WGRTHandler.prepare. steady_steps.
Qed.

(** X20.  The LCG handler sets the software requirement of the backend
    to [VO-snoplus.snolab.ca-rat-<version>] before anything else, and
    the requirement stays set whether [prepare] then returns or raises;
    beyond that it only appends to the input sandbox, and it writes no
    file. *)
Theorem lcg_prepare_tags_backend (app_config : string → result pyval) (dir : string)
    (w : World) :
  let w' := snd (LCGRTHandler.prepare app_config dir w) in
  extends (lcg_tagged w) w'
  ∧ requirements_software (backend (job w')) =
    PyStr ("VO-snoplus.snolab.ca-rat-" +:+ ratVersion (application (job w)))
  ∧ filesystem w' = filesystem w.
Proof.
  intros w'. unfold w'. clear w'.
  unfold LCGRTHandler.prepare, mbind, get_app, gets, modify_job, lift,
    inputsandbox_append, modify_job, ret, lcg_tagged, extends.
  destruct (run_file (application (job w))) as [e | [macroFile prodFile]]; simpl;
    [by split_and! |].
  destruct (useDB (application (job w))); simpl;
    repeat match goal with
           | |- context [app_config ?k] => destruct (app_config k); simpl
           end;
    split_and!; try done; by apply prefix_app_r.
Qed.

(** X21.  The LCG handler checks nothing of its own: the only way its
    [prepare] raises is that [useDB] is set and one of the five database
    keys cannot be read in [app.config], and then it raises what that
    lookup raised.  An empty software directory, script or macro does
    not stop it. *)
Theorem lcg_prepare_fails_only_on_config (app_config : string → result pyval)
    (dir : string) (w w' : World) (e : exn) :
  LCGRTHandler.prepare app_config dir w = (inl e, w') →
  useDB (application (job w)) = true
  ∧ ∃ key, key ∈ db_keys ∧ app_config key = inl e.
Proof.
  destruct (run_file_spec (application (job w))) as (file & _ & _ & Hrun).
  unfold LCGRTHandler.prepare, mbind, get_app, gets, modify_job, lift,
    inputsandbox_append, modify_job, ret. simpl. rewrite Hrun.
  destruct (bool_decide (ratMacro (application (job w)) ≠ "")); simpl.
  all: destruct (useDB (application (job w))); simpl; [|done].
  all: destruct (app_config "rat_db_user") eqn:H1; simpl;
    [intros [= <- _]; split; [done|]; exists "rat_db_user"; split; [|done];
     unfold db_keys; repeat constructor |].
  all: destruct (app_config "rat_db_pswd") eqn:H2; simpl;
    [intros [= <- _]; split; [done|]; exists "rat_db_pswd"; split; [|done];
     unfold db_keys; repeat constructor |].
  all: destruct (app_config "rat_db_name") eqn:H3; simpl;
    [intros [= <- _]; split; [done|]; exists "rat_db_name"; split; [|done];
     unfold db_keys; repeat constructor |].
  all: destruct (app_config "rat_db_protocol") eqn:H4; simpl;
    [intros [= <- _]; split; [done|]; exists "rat_db_protocol"; split; [|done];
     unfold db_keys; repeat constructor |].
  all: destruct (app_config "rat_db_url") eqn:H5; simpl;
    [intros [= <- _]; split; [done|]; exists "rat_db_url"; split; [|done];
     unfold db_keys; repeat constructor |].
  all: done.
Qed.

Lemma lcg_prepare_fails_only_on_config_witness :
  LCGRTHandler.prepare partial_config "/opt/ganga" macro_world =
  (inl (ConfigError "rat_db_name"), lcg_tagged macro_world)
  ∧ useDB (application (job macro_world)) = true
  ∧ ∃ key, key ∈ db_keys ∧ partial_config key = inl (ConfigError "rat_db_name").
Proof.
  split; [reflexivity|].
  exact (lcg_prepare_fails_only_on_config partial_config "/opt/ganga" macro_world
           (lcg_tagged macro_world) (ConfigError "rat_db_name") eq_refl).
Defined.

(** ** Configure, then prepare *)

(** X22.  [configure] followed by [prepare] on a local or batch backend,
    without an environment: the job configuration that comes back ships
    the run file in its input box and [return_card.js] (after [rat.log]
    in macro mode) in its output box, and its [-o] and [-i] tokens list
    the file fields as [configure] forced them into lists, so that a
    lone file name [s] reaches the runner as [[s]]. *)
Theorem configure_then_prepare (config app_config : string → result pyval)
    (dir login : string) (can_write : string → bool) (w : World)
    (user pswd name protocol url : pyval) :
  let app := application (job w) in
  configurable config app →
  environment app = EnvNone →
  ratDirectory app ≠ "" →
  (useDB app = true → configured app_config user pswd name protocol url) →
  ∃ file,
    is_last_component (run_path app) file
    ∧ fst (mbind (configure config)
             (λ _, RTHandler.prepare app_config dir login can_write) w) =
      inr (StandardJobConfig (File (dir +:+ "/ratProdRunner.py"))
             (inputsandbox (job w) ++ [File (run_path app)])
             (outputsandbox (job w)
              ++ (if bool_decide (ratMacro app ≠ "") then ["rat.log"] else [])
              ++ ["return_card.js"])
             ([PyStr "-v"; PyStr (ratVersion app);
               PyStr "-s"; PyStr (ratDirectory app);
               PyStr "-d"; PyStr (outputDir app);
               PyStr "-o"; PyStr (file_list (as_list (outputFiles app)));
               PyStr "-x"; PyStr (inputDir app);
               PyStr "-i"; PyStr (file_list (as_list (inputFiles app)))]
              ++ (if bool_decide (ratMacro app ≠ "")
                  then [PyStr "-m"; PyStr file]
                  else [PyStr "-k"; PyStr "-m"; PyStr file])
              ++ (if useDB app then db_args user pswd name protocol url else [])
              ++ (if discardOutput app then [PyStr "--nostore"] else []))).
Proof.
  intros app Hok Henv Hdir Hdb.
  unfold mbind. rewrite (configure_ok_eq config w Hok).
  assert (let app' := application (job (configured_world w)) in
          environment app' = environment app ∧ ratDirectory app' = ratDirectory app
          ∧ useDB app' = useDB app ∧ run_path app' = run_path app
          ∧ ratVersion app' = ratVersion app ∧ outputDir app' = outputDir app
          ∧ inputDir app' = inputDir app ∧ ratMacro app' = ratMacro app
          ∧ discardOutput app' = discardOutput app
          ∧ outputFiles app' = as_list (outputFiles app)
          ∧ inputFiles app' = as_list (inputFiles app))
    as (He & Hd & Hu & Hp & Hv & Hod & Hid & Hm & Hdis & Hof & Hif).
  { unfold app, configured_world, run_path. simpl.
    by destruct (application (job w)). }
  destruct (prepare_plain_eq app_config dir login can_write (configured_world w)
              user pswd name protocol url) as (file & _ & Hlast & ->).
  - by rewrite He.
  - by rewrite Hd.
  - by rewrite Hu.
  - exists file. rewrite Hp in Hlast. split; [done|].
    rewrite Hv, Hd, Hod, Hid, Hm, Hu, Hdis, Hof, Hif. simpl. fold app.
    unfold configure_outputs.
    by destruct (bool_decide (ratMacro app ≠ "")).
Qed.

Lemma configure_then_prepare_witness :
  ∃ file,
    is_last_component "/scripts/s1.py" file
    ∧ fst (mbind (configure unset_config)
             (λ _, RTHandler.prepare unset_config "/opt/ganga" "snoprod" (λ _, true))
             string_fields_world) =
      inr (StandardJobConfig (File "/opt/ganga/ratProdRunner.py")
             ([] ++ [File "/scripts/s1.py"])
             ([] ++ [] ++ ["return_card.js"])
             ([PyStr "-v"; PyStr "4"; PyStr "-s"; PyStr "/sw/snoing";
               PyStr "-d"; PyStr "";
               PyStr "-o"; PyStr (file_list (as_list (FStr "o1.root")));
               PyStr "-x"; PyStr "";
               PyStr "-i"; PyStr (file_list (as_list (FStr "f1.root")))]
              ++ [PyStr "-k"; PyStr "-m"; PyStr file]
              ++ []
              ++ [])).
Proof.
  exact (configure_then_prepare unset_config unset_config "/opt/ganga" "snoprod"
           (λ _, true) string_fields_world PyNone PyNone PyNone PyNone PyNone
           configurable_string_fields eq_refl ltac:(discriminate)
           ltac:(discriminate)).
Defined.

(** ** Split, then configure *)

Lemma configure_both_set (config : string → result pyval) (w : World) :
  prodScript (application (job w)) ≠ "" →
  ratMacro (application (job w)) ≠ "" →
  configure config w =
  (inl (Exception "both prodScript and ratMacro are defined"), w).
Proof.
  intros Hs Hm. unfold configure, mbind, get_app, gets.
  destruct (String.eqb_spec (prodScript (application (job w))) ""); [done|].
  by destruct (String.eqb_spec (ratMacro (application (job w))) "").
Qed.

(** X23.  A split sets one of [ratMacro] and [prodScript] and leaves the
    other as the parent has it.  So when a job whose application already
    names a macro is split by scripts, none of them empty, every sub-job
    names both, and [configure] raises on each of them. *)
Theorem split_by_scripts_of_macro_job (createSubjob : Job → Job)
    (config : string → result pyval) (self : RATSplitter.t) (job : Job)
    (subjobs : list Job) (fs : gmap string string) :
  RATSplitter.split createSubjob self job = inr subjobs →
  RATSplitter.prodScript self ≠ [] →
  "" ∉ RATSplitter.prodScript self →
  ratMacro (application (createSubjob job)) ≠ "" →
  Forall (λ j,
    configure config (mkWorld j fs) =
    (inl (Exception "both prodScript and ratMacro are defined"), mkWorld j fs))
    subjobs.
Proof.
  intros Hsplit Hscripts Hnonempty Hmacro.
  destruct (split_cases createSubjob self job) as [[_ [e He]] | (Hok & _ & Heq)];
    [congruence|].
  destruct (split_loop_passes createSubjob self job Hok) as (new & Hnew & Hslices).
  rewrite Heq in Hsplit. assert (new = subjobs) as -> by congruence.
  apply Forall_forall. intros j Hj.
  apply list_elem_of_lookup in Hj as [i Hi].
  destruct (Forall2_lookup_r _ _ _ _ _ Hslices Hi) as (k & _ & Hslice).
  destruct Hslice as (_ & _ & _ & Hscript).
  destruct (Hscript Hscripts) as [Hs Hm].
  apply configure_both_set; simpl.
  - intros Hempty. apply Hnonempty. rewrite <- Hempty.
    by apply list_elem_of_lookup_2 in Hs.
  - by rewrite Hm.
Qed.

Lemma split_by_scripts_of_macro_job_witness :
  Forall (λ j,
    configure unset_config (mkWorld j ∅) =
    (inl (Exception "both prodScript and ratMacro are defined"), mkWorld j ∅))
    [set_application
       (set_prodScript "s1.mac"
          (set_inputFiles (FStr "f1.root")
             (set_outputFiles (FStr "o1.root") (application macro_parent))))
       macro_parent;
     set_application
       (set_prodScript "s2.mac"
          (set_inputFiles (FStr "f2.root")
             (set_outputFiles (FStr "o2.root") (application macro_parent))))
       macro_parent].
Proof.
  apply (split_by_scripts_of_macro_job id unset_config two_files macro_parent _ ∅
           eq_refl); [discriminate | | discriminate].
  intros H. apply elem_of_cons in H as [H | H]; [discriminate|].
  apply elem_of_cons in H as [H | H]; [discriminate|].
  by apply not_elem_of_nil in H.
Defined.

(** ** The database tokens *)

Lemma file_list_open (x : files) : ∃ rest, file_list x = String "[" rest.
Proof.
  unfold file_list. rewrite add_entries_acc.
  destruct (add_entries "" (enumerate x)) as [|c entries]; [by eexists|].
  change ("[" +:+ String c entries) with (String "[" (String c entries)).
  simpl. by eexists.
Qed.

(** With the database in use and one of script and macro set,
    [configure] returns exactly when [config] has a password. *)
Lemma configure_password_iff (config : string → result pyval) (w : World) :
  (prodScript (application (job w)) = "" ↔ ratMacro (application (job w)) ≠ "") →
  useDB (application (job w)) = true →
  (∃ v, config "rat_db_pswd" = inr v ∧ truthy v = true)
  ↔ ∃ w', configure config w = (inr (PyNone, PyNone), w').
Proof.
  intros Hmode Hdb. split.
  - intros Hpswd. exists (configured_world w). apply configure_ok_eq.
    by split.
  - intros [w' Hok].
    destruct (config "rat_db_pswd") as [e | v] eqn:Hv.
    + revert Hok. unfold configure, mbind, get_app, gets, lift, raise_if.
      destruct (String.eqb_spec (prodScript (application (job w))) ""),
        (String.eqb_spec (ratMacro (application (job w))) "");
        simpl; try done; try tauto.
      all: unfold ret at 1; by rewrite Hdb, Hv.
    + exists v. split; [done|]. destruct (truthy v) eqn:Ht; [done|].
      revert Hok. unfold configure, mbind, get_app, gets, lift, raise_if.
      destruct (String.eqb_spec (prodScript (application (job w))) ""),
        (String.eqb_spec (ratMacro (application (job w))) "");
        simpl; try done; try tauto.
      all: unfold ret at 1; rewrite Hdb, Hv; simpl; by rewrite Ht.
Qed.

(** C5.  On the local and batch backends, with [useDB] set the argument
    list has exactly the five database tokens [--dbuser],
    [--dbpassword], [--dbname], [--dbprotocol], [--dburl], in this
    order, each followed by the value [app.config] holds for it,
    whatever that value is ([None] and the empty string included:
    [prepare] checks none of them), between the run file and
    [--nostore]; with [useDB] unset the list is the same without them,
    and none of the five flags is in it, unless the application itself
    gives one as its version, a directory or its run file.  At
    configuration time the password is checked and nothing else: with
    [useDB] set and one of script and macro given, [configure] returns
    exactly when [config] has a non-empty password. *)
Theorem db_tokens_follow_flag (app_config : string → result pyval) (dir login : string)
    (can_write : string → bool) (w : World) (user pswd name protocol url : pyval) :
  let app := application (job w) in
  environment app = EnvNone →
  ratDirectory app ≠ "" →
  configured app_config user pswd name protocol url →
  ∃ file,
    is_last_component (run_path app) file
    ∧ let before :=
        [PyStr "-v"; PyStr (ratVersion app); PyStr "-s"; PyStr (ratDirectory app);
         PyStr "-d"; PyStr (outputDir app);
         PyStr "-o"; PyStr (file_list (outputFiles app));
         PyStr "-x"; PyStr (inputDir app);
         PyStr "-i"; PyStr (file_list (inputFiles app))]
        ++ (if bool_decide (ratMacro app ≠ "")
            then [PyStr "-m"; PyStr file]
            else [PyStr "-k"; PyStr "-m"; PyStr file]) in
      let after := if discardOutput app then [PyStr "--nostore"] else [] in
      RTHandler.prepare app_config dir login can_write (with_useDB true w) =
      (inr (StandardJobConfig (File (dir +:+ "/ratProdRunner.py"))
              (inputsandbox (job w)) (outputsandbox (job w))
              (before
               ++ [PyStr "--dbuser"; user; PyStr "--dbpassword"; pswd;
                   PyStr "--dbname"; name; PyStr "--dbprotocol"; protocol;
                   PyStr "--dburl"; url]
               ++ after)), with_useDB true w)
      ∧ RTHandler.prepare app_config dir login can_write (with_useDB false w) =
        (inr (StandardJobConfig (File (dir +:+ "/ratProdRunner.py"))
                (inputsandbox (job w)) (outputsandbox (job w))
                (before ++ after)), with_useDB false w)
      ∧ ((∀ flag, flag ∈ db_flags →
            flag ∉ [ratVersion app; ratDirectory app; outputDir app;
                    inputDir app; file]) →
         ∀ flag, flag ∈ db_flags → PyStr flag ∉ before ++ after)
      ∧ (∀ config : string → result pyval,
           (prodScript app = "" ↔ ratMacro app ≠ "") →
           (∃ v, config "rat_db_pswd" = inr v ∧ truthy v = true)
           ↔ ∃ w', configure config (with_useDB true w) = (inr (PyNone, PyNone), w')).
Proof.
  intros app Henv Hdir Hdb.
  destruct (run_file_spec app) as (file & Hfile & Hlast & _).
  exists file. split; [done|]. intros before after. split_and!.
  - destruct (prepare_plain_eq app_config dir login can_write (with_useDB true w)
                user pswd name protocol url Henv Hdir (λ _, Hdb))
      as (file' & Hfile' & _ & ->).
    unfold app in *.
    change (run_path _) with (run_path (application (job w))) in Hfile'.
    assert (file' = file) as -> by congruence.
    unfold before, after, app. simpl. by rewrite <- ?app_assoc.
  - destruct (prepare_plain_eq app_config dir login can_write (with_useDB false w)
                user pswd name protocol url Henv Hdir (λ _, Hdb))
      as (file' & Hfile' & _ & ->).
    unfold app in *.
    change (run_path _) with (run_path (application (job w))) in Hfile'.
    assert (file' = file) as -> by congruence.
    unfold before, after, app. simpl. by rewrite <- ?app_assoc.
  - intros Hfree flag Hflag Hin. pose proof (Hfree flag Hflag) as Hnot.
    destruct (file_list_open (outputFiles app)) as [outs Houts].
    destruct (file_list_open (inputFiles app)) as [ins Hins].
    unfold before, after in Hin. rewrite Houts, Hins in Hin.
    unfold db_flags in Hflag.
    repeat match goal with
           | H : _ ∈ _ ++ _ |- _ => apply elem_of_app in H as [H | H]
           | H : _ ∈ (if ?c then _ else _) |- _ => destruct c
           | H : PyStr _ ∈ _ :: _ |- _ => apply elem_of_cons in H as [H | H]
           | H : PyStr _ ∈ [] |- _ => by apply not_elem_of_nil in H
           end.
    all: injection Hin as ->.
    all: first
      [ by (apply Hnot; repeat constructor)
      | repeat (apply elem_of_cons in Hflag as [Hflag | Hflag]; [discriminate|]);
        by apply not_elem_of_nil in Hflag ].
  - intros config Hmode.
    apply (configure_password_iff config (with_useDB true w)); [|done].
    simpl. by destruct (application (job w)).
Qed.

Lemma db_tokens_follow_flag_witness :
  ∃ file,
    is_last_component "/macros/run.mac" file
    ∧ let before :=
        [PyStr "-v"; PyStr "5"; PyStr "-s"; PyStr "/sw/snoing";
         PyStr "-d"; PyStr "out"; PyStr "-o"; PyStr "[o1.root,o2.root]";
         PyStr "-x"; PyStr "in"; PyStr "-i"; PyStr "[i1.root]"]
        ++ [PyStr "-m"; PyStr file] in
      let after := [PyStr "--nostore"] in
      RTHandler.prepare unset_config "/opt/ganga" "snoprod" (λ _, true)
        (with_useDB true macro_world) =
      (inr (StandardJobConfig (File "/opt/ganga/ratProdRunner.py") [] []
              (before
               ++ [PyStr "--dbuser"; PyNone; PyStr "--dbpassword"; PyNone;
                   PyStr "--dbname"; PyNone; PyStr "--dbprotocol"; PyNone;
                   PyStr "--dburl"; PyNone]
               ++ after)), with_useDB true macro_world)
      ∧ RTHandler.prepare unset_config "/opt/ganga" "snoprod" (λ _, true)
          (with_useDB false macro_world) =
        (inr (StandardJobConfig (File "/opt/ganga/ratProdRunner.py") [] []
                (before ++ after)), with_useDB false macro_world)
      ∧ ((∀ flag, flag ∈ db_flags →
            flag ∉ ["5"; "/sw/snoing"; "out"; "in"; file]) →
         ∀ flag, flag ∈ db_flags → PyStr flag ∉ before ++ after)
      ∧ (∀ config : string → result pyval,
           ("" = "" ↔ "/macros/run.mac" ≠ "") →
           (∃ v, config "rat_db_pswd" = inr v ∧ truthy v = true)
           ↔ ∃ w', configure config (with_useDB true macro_world)
                   = (inr (PyNone, PyNone), w')).
Proof.
  exact (db_tokens_follow_flag unset_config "/opt/ganga" "snoprod" (λ _, true)
           macro_world PyNone PyNone PyNone PyNone PyNone eq_refl
           ltac:(discriminate) unset_config_configured).
Defined.
